(** * ugpio: a user-space UIO client for an AXI GPIO block

    Shallow embedding of [ugpio.c] (PetaLinux 2014.4, ZedBoard) and the
    properties of its start-up sequence, of its region-size parser and of
    its interrupt handshake.

    The program talks to three external parties: the C library and kernel
    (open, fopen, fscanf, mmap, read, write, printf), the memory-mapped
    registers of the GPIO block, and its own standard output.  The
    embedding threads an abstract environment through every call, collects
    the externally visible actions in a trace, and stops at [exit].  The
    target is the 32-bit ARM of the Zynq-7000: [int], [unsigned int],
    pointers and [size_t] are 32 bits wide and integers are stored least
    significant byte first. *)

From Stdlib Require Import ZArith String Ascii Strings.Byte Bool Lia.
From Stdlib Require Import DecimalString DecimalZ DecimalPos List.
Import ListNotations.

Local Open Scope string_scope.
Local Open Scope list_scope.
Local Open Scope Z_scope.

(** ** Machine integers *)

Definition wrap32 (x : Z) : Z := x mod 2 ^ 32.

(** Conversion of a 32-bit pattern to [int]. *)
Definition to_int (x : Z) : Z :=
  let u := wrap32 x in if u <? 2 ^ 31 then u else u - 2 ^ 32.

(** Conversion of an [int] to [size_t] (32 bits on the target). *)
Definition to_size_t (x : Z) : Z := wrap32 x.

Definition byte_of_Z (z : Z) : byte :=
  match Byte.of_N (Z.to_N (z mod 256)) with
  | Some b => b
  | None => x00
  end.

Definition Z_of_byte (b : byte) : Z := Z.of_N (Byte.to_N b).

(** The object representation of an [int]: [sizeof(int)] = 4 bytes. *)
Definition sizeof_int : Z := 4.

Definition encode_int (v : Z) : list byte :=
  let u := wrap32 v in
  [ byte_of_Z u; byte_of_Z (Z.shiftr u 8);
    byte_of_Z (Z.shiftr u 16); byte_of_Z (Z.shiftr u 24) ].

Fixpoint decode_unsigned (bs : list byte) : Z :=
  match bs with
  | [] => 0
  | b :: bs' => Z_of_byte b + 256 * decode_unsigned bs'
  end.

Definition decode_int (bs : list byte) : Z := to_int (decode_unsigned bs).

(** Storing [data] at the start of an object whose bytes are [old]: the
    bytes past the end of [data] keep their previous contents. *)
Definition overlay (old data : list byte) : list byte :=
  let d := firstn (length old) data in
  d ++ skipn (length d) old.

(** ** Text *)

Definition nl : string := String "010"%char EmptyString.

(** [printf]'s [%d] conversion. *)
Definition decimal (v : Z) : string := NilZero.string_of_int (Z.to_int v).

(** ** Register map and constants of the source *)

Definition GPIO_MAP_SIZE : Z := 0x10000.
Definition GPIO_DATA_OFFSET : Z := 0x00.
Definition GPIO_TRI_OFFSET : Z := 0x04.
Definition GPIO_DATA2_OFFSET : Z := 0x08.
Definition GPIO_TRI2_OFFSET : Z := 0x0C.
Definition GPIO_GLOBAL_IRQ : Z := 0x11C.
Definition GPIO_IRQ_CONTROL : Z := 0x128.
Definition GPIO_IRQ_STATUS : Z := 0x120.

(** Values of the Linux headers the program is compiled against. *)
Definition O_RDWR : Z := 2.
Definition PROT_READ : Z := 1.
Definition PROT_WRITE : Z := 2.
Definition MAP_SHARED : Z := 1.
Definition NULL : Z := 0.
(** [MAP_FAILED] is [(void * ) -1]. *)
Definition MAP_FAILED : Z := wrap32 (-1).
Definition EOF : Z := -1.

(** ** The formatted-input conversion used by [get_memory_size]

    [fscanf] is modelled after ISO C 7.21.6.2 for the directives that occur
    in the program's format: ordinary characters, which must match the next
    input character exactly, and [%<width>X], which skips white space and
    then takes the longest prefix, of at most [width] characters, of an
    optionally signed hexadecimal integer with an optional [0x] prefix. *)

Inductive directive : Type :=
| DLit (c : ascii)      (* an ordinary character *)
| DHex (width : nat)    (* [%<width>x] or [%<width>X] *)
| DOther.               (* anything else: not interpreted, never matches *)

Definition ascii_code (c : ascii) : Z := Z.of_N (N_of_ascii c).

Definition is_digit (c : ascii) : bool :=
  (48 <=? ascii_code c) && (ascii_code c <=? 57).

(** [isspace] in the C locale: space, and the controls 9 to 13. *)
Definition isspace (c : ascii) : bool :=
  (ascii_code c =? 32) || ((9 <=? ascii_code c) && (ascii_code c <=? 13)).

Definition is_sign (c : ascii) : bool :=
  (ascii_code c =? 43) || (ascii_code c =? 45).

Definition is_x (c : ascii) : bool :=
  (ascii_code c =? 120) || (ascii_code c =? 88).

Definition hex_digit (c : ascii) : option Z :=
  let n := ascii_code c in
  if (48 <=? n) && (n <=? 57) then Some (n - 48)
  else if (65 <=? n) && (n <=? 70) then Some (n - 55)
  else if (97 <=? n) && (n <=? 102) then Some (n - 87)
  else None.

(** The decimal field width after [%]: returns the width read so far and
    the rest of the format. *)
Fixpoint read_width (fmt : string) (acc : option nat) : option nat * string :=
  match fmt with
  | String c r =>
      if is_digit c
      then read_width r
             (Some (10 * match acc with Some a => a | None => 0 end
                    + Z.to_nat (ascii_code c - 48))%nat)
      else (acc, fmt)
  | EmptyString => (acc, fmt)
  end.

Fixpoint parse_format_fuel (fuel : nat) (fmt : string) : list directive :=
  match fuel with
  | O => []
  | S fuel' =>
      match fmt with
      | EmptyString => []
      | String c r =>
          if (ascii_code c =? 37) then
            match read_width r None with
            | (Some w, String k r') =>
                if is_x k then DHex w :: parse_format_fuel fuel' r'
                else [DOther]
            | _ => [DOther]
            end
          else if isspace c then [DOther]
          else DLit c :: parse_format_fuel fuel' r
      end
  end.

Definition parse_format (fmt : string) : list directive :=
  parse_format_fuel (String.length fmt) fmt.

Fixpoint skip_space (s : string) : string :=
  match s with
  | String c r => if isspace c then skip_space r else s
  | EmptyString => s
  end.

(** Up to [w] hexadecimal digits, accumulated as [strtoul] does.  The
    accumulator is [None] until a digit has been taken. *)
Fixpoint take_hex (w : nat) (s : string) (acc : option Z) : option Z * string :=
  match w, s with
  | S w', String c r =>
      match hex_digit c with
      | Some d =>
          take_hex w' r
            (Some (16 * match acc with Some a => a | None => 0 end + d))
      | None => (acc, s)
      end
  | _, _ => (acc, s)
  end.

Inductive conversion : Type :=
| ConvOk (v : Z) (rest : string)
| MatchFail
| InputFail.

Definition scan_hex (width : nat) (input : string) : conversion :=
  match skip_space input with
  | EmptyString => InputFail
  | String c r as s =>
      let '(neg, w, s) :=
        if is_sign c && (1 <=? width)%nat
        then (ascii_code c =? 45, (width - 1)%nat, r)
        else (false, width, s) in
      let '(w, s) :=
        match s with
        | String z (String x r') =>
            if (ascii_code z =? 48) && is_x x && (2 <=? w)%nat
            then ((w - 2)%nat, r') else (w, s)
        | _ => (w, s)
        end in
      match take_hex w s None with
      | (Some v, rest) => ConvOk (wrap32 (if neg then - v else v)) rest
      | (None, _) => MatchFail
      end
  end.

(** Runs the directives over the input.  The result is [fscanf]'s return
    value and the values assigned, in order, through its pointer
    arguments. *)
Fixpoint scan (ds : list directive) (input : string) (assigned : list Z)
  : Z * list Z :=
  let count := Z.of_nat (length assigned) in
  let input_failure := match assigned with [] => EOF | _ => count end in
  match ds with
  | [] => (count, assigned)
  | DLit c :: ds' =>
      match input with
      | EmptyString => (input_failure, assigned)
      | String c' r =>
          if (ascii_code c =? ascii_code c') then scan ds' r assigned
          else (count, assigned)
      end
  | DHex w :: ds' =>
      match scan_hex w input with
      | ConvOk v rest => scan ds' rest (assigned ++ [v])
      | MatchFail => (count, assigned)
      | InputFail => (input_failure, assigned)
      end
  | DOther :: _ => (count, assigned)
  end.

Definition fscanf (stream fmt : string) : Z * list Z :=
  scan (parse_format fmt) stream [].

(** ** The environment

    What the program cannot decide by itself is asked of the platform: the
    results of system calls, the values hardware registers hold when they
    are loaded, and the contents of an automatic object that was never
    initialised.  Every call may change the environment. *)

Class Platform (Env : Type) : Type := {
  (** [open(path, flags)]: a descriptor, or -1 *)
  os_open : string -> Z -> Env -> Z * Env;
  (** [fopen(path, mode)]: the text the stream will deliver, or [None] for
      a null [FILE] pointer *)
  os_fopen : string -> string -> Env -> option string * Env;
  (** [mmap(addr, length, prot, flags, fd, offset)]: the base address, or
      [MAP_FAILED] *)
  os_mmap : Z -> Z -> Z -> Z -> Z -> Z -> Env -> Z * Env;
  (** [read(fd, buf, count)]: the return value and the bytes transferred *)
  os_read : Z -> Z -> Env -> (Z * list byte) * Env;
  (** [write(fd, buf, count)]: the return value *)
  os_write : Z -> list byte -> Env -> Z * Env;
  (** a volatile 32-bit load from an address *)
  mmio_load : Z -> Env -> Z * Env;
  (** a volatile 32-bit store to an address *)
  mmio_store : Z -> Z -> Env -> Env;
  (** the contents of an uninitialised automatic object *)
  indeterminate : Env -> Z
}.

(** The externally visible actions, in the order they happen. *)
Inductive event : Type :=
| EvStdout (text : string)
| EvOpen (path : string) (flags ret : Z)
| EvFopen (path mode : string) (opened : bool)
| EvFclose
| EvMmap (len fd off ret : Z)
| EvMunmap (addr len : Z)
| EvRead (fd count ret : Z) (data : list byte)
| EvLoad (addr value : Z)
| EvStore (addr value : Z)
| EvWrite (fd : Z) (buf : list byte) (ret : Z).

Inductive outcome (A : Type) : Type :=
| Ret (a : A)         (* returned [a] *)
| Exit (status : Z)   (* the process called [exit(status)] *)
| Spin.               (* still inside [while (1)] when the fuel ran out *)

Arguments Ret {A} a.
Arguments Exit {A} status.
Arguments Spin {A}.

Record run (Env A : Type) : Type := MkRun {
  outcome_of : outcome A;
  env_of : Env;
  trace_of : list event
}.

Arguments MkRun {Env A} _ _ _.
Arguments outcome_of {Env A} _.
Arguments env_of {Env A} _.
Arguments trace_of {Env A} _.

Definition proc (Env A : Type) : Type := Env -> run Env A.

Definition ret {Env A} (a : A) : proc Env A :=
  fun e => MkRun (Ret a) e [].

Definition bind {Env A B} (m : proc Env A) (k : A -> proc Env B)
  : proc Env B :=
  fun e =>
    match m e with
    | MkRun (Ret a) e1 t1 =>
        match k a e1 with
        | MkRun o e2 t2 => MkRun o e2 (t1 ++ t2)
        end
    | MkRun (Exit s) e1 t1 => MkRun (Exit s) e1 t1
    | MkRun Spin e1 t1 => MkRun Spin e1 t1
    end.

Declare Scope proc_scope.
Delimit Scope proc_scope with proc.

Notation "x <- c1 ;; c2" := (bind c1 (fun x => c2))
  (at level 61, c1 at next level, right associativity) : proc_scope.
Notation "' pat <- c1 ;; c2" :=
  (bind c1 (fun x => match x with pat => c2 end))
  (at level 61, pat pattern, c1 at next level, right associativity)
  : proc_scope.
Notation "c1 ;; c2" := (bind c1 (fun _ => c2))
  (at level 61, right associativity) : proc_scope.

Local Open Scope proc_scope.

(** [exit(status)] *)
Definition exit {Env A} (status : Z) : proc Env A :=
  fun e => MkRun (Exit status) e [].

Definition spin {Env A} : proc Env A :=
  fun e => MkRun Spin e [].

(** [while (1) body] with [fuel] iterations allowed. *)
Fixpoint forever {Env} (fuel : nat) (body : proc Env unit) : proc Env unit :=
  match fuel with
  | O => spin
  | S fuel' => body ;; forever fuel' body
  end.

Section Program.

Context {Env : Type} {P : Platform Env}.

(** *** Library calls *)

Definition printf (text : string) : proc Env unit :=
  fun e => MkRun (Ret tt) e [EvStdout text].

Definition open (path : string) (flags : Z) : proc Env Z :=
  fun e =>
    let '(fd, e') := os_open path flags e in
    MkRun (Ret fd) e' [EvOpen path flags fd].

Definition fopen (path mode : string) : proc Env (option string) :=
  fun e =>
    let '(fp, e') := os_fopen path mode e in
    MkRun (Ret fp) e'
      [EvFopen path mode (match fp with Some _ => true | None => false end)].

Definition fclose : proc Env unit :=
  fun e => MkRun (Ret tt) e [EvFclose].

Definition mmap (addr len prot flags fd off : Z) : proc Env Z :=
  fun e =>
    let '(p, e') := os_mmap addr len prot flags fd off e in
    MkRun (Ret p) e' [EvMmap len fd off p].

Definition munmap (addr len : Z) : proc Env unit :=
  fun e => MkRun (Ret tt) e [EvMunmap addr len].

(** [read(fd, buf, count)], where [buf] points at an object whose bytes
    are [obj]: the return value and the object's bytes after the call. *)
Definition read (fd : Z) (obj : list byte) (count : Z)
  : proc Env (Z * list byte) :=
  fun e =>
    let '((n, data), e') := os_read fd count e in
    let data := firstn (Z.to_nat count) data in
    MkRun (Ret (n, overlay obj data)) e' [EvRead fd count n data].

(** [write(fd, buf, count)], where [buf] points at the bytes [obj]. *)
Definition write (fd : Z) (obj : list byte) (count : Z) : proc Env Z :=
  fun e =>
    let buf := firstn (Z.to_nat count) obj in
    let '(n, e') := os_write fd buf e in
    MkRun (Ret n) e' [EvWrite fd buf n].

(** The value of a local [unsigned int] declared without initialiser. *)
Definition uninitialised : proc Env Z :=
  fun e => MkRun (Ret (wrap32 (indeterminate e))) e [].

(** *** The program *)

Definition gpio_write (gpio_base offset value : Z) : proc Env unit :=
  fun e =>
    MkRun (Ret tt)
      (mmio_store (gpio_base + offset) (wrap32 value) e)
      [EvStore (gpio_base + offset) (wrap32 value)].

Definition gpio_read (gpio_base offset : Z) : proc Env Z :=
  fun e =>
    let '(v, e') := mmio_load (gpio_base + offset) e in
    MkRun (Ret (wrap32 v)) e' [EvLoad (gpio_base + offset) (wrap32 v)].

Definition wait_for_interrupt (fd gpio_ptr : Z) : proc Env unit :=
  let pending := 0 in
  let reenable := 1 in
  (* block on the file waiting for an interrupt *)
  '(_, pending_obj) <- read fd (encode_int pending) sizeof_int ;;
  let pending := decode_int pending_obj in
  (* the interrupt occurred for the 2nd GPIO channel so clear it *)
  reg <- gpio_read gpio_ptr GPIO_IRQ_STATUS ;;
  (if negb (reg =? 0)
   then gpio_write gpio_ptr GPIO_IRQ_STATUS 2
   else ret tt) ;;
  reg <- gpio_read gpio_ptr GPIO_DATA2_OFFSET ;;
  printf ("GPIO_DATA2_OFFSET: 0x" ++ decimal (to_int reg) ++ nl)%string ;;
  (* re-enable the interrupt in the interrupt controller *)
  write fd (encode_int reenable) sizeof_int ;;
  ret tt.

Definition get_memory_size (sysfs_path_file : string) : proc Env Z :=
  size <- uninitialised ;;
  size_fp <- fopen sysfs_path_file "r" ;;
  match size_fp with
  | None =>
      printf ("unable to open the uio size file" ++ nl)%string ;;
      exit (-1)
  | Some stream =>
      (* fscanf(size_fp, "0x%08X", &size): its return value is dropped *)
      let size := hd size (snd (fscanf stream "0x%08X")) in
      fclose ;;
      ret size
  end.

Definition uiod : string := "/dev/uio0".

Definition main (fuel : nat) : proc Env Z :=
  printf ("GPIO UIO test." ++ nl)%string ;;
  fd <- open uiod O_RDWR ;;
  if fd <? 1 then
    printf ("Invalid UIO device file:" ++ uiod ++ "." ++ nl)%string ;;
    ret (-1)
  else
    size <- get_memory_size "/sys/class/uio/uio0/maps/map0/size" ;;
    let gpio_size := to_int size in
    gpio_ptr <- mmap NULL (to_size_t gpio_size)
                  (Z.lor PROT_READ PROT_WRITE) MAP_SHARED fd 0 ;;
    if gpio_ptr =? MAP_FAILED then
      printf ("Mmap call failure." ++ nl)%string ;;
      ret (-1)
    else
      gpio_write gpio_ptr GPIO_TRI_OFFSET 0 ;;
      gpio_write gpio_ptr GPIO_TRI2_OFFSET 0xF ;;
      gpio_write gpio_ptr GPIO_GLOBAL_IRQ 0x80000000 ;;
      gpio_write gpio_ptr GPIO_IRQ_CONTROL 2 ;;
      forever fuel (wait_for_interrupt fd gpio_ptr) ;;
      munmap gpio_ptr (to_size_t gpio_size) ;;
      ret 0
  .

End Program.

(** Returning from [main] ends the process with the value returned. *)
Definition exit_status (o : outcome Z) : option Z :=
  match o with
  | Ret v => Some v
  | Exit s => Some s
  | Spin => None
  end.

(** ** Classifying events *)

Definition is_store (ev : event) : bool :=
  match ev with EvStore _ _ => true | _ => false end.

Definition is_load_from (addr : Z) (ev : event) : bool :=
  match ev with EvLoad a _ => a =? addr | _ => false end.

Definition is_channel_write (ev : event) : bool :=
  match ev with EvWrite _ _ _ => true | _ => false end.

Definition count (p : event -> bool) (tr : list event) : nat :=
  List.length (filter p tr).

(** ** A simulated platform

    A register backend that behaves as plain memory, a notification
    channel that delivers a script of read results, one region-size
    descriptor, and a mapping primitive given as a function of the
    requested length. *)

Record sim : Type := MkSim {
  sim_open : Z;                          (* what [open] returns *)
  sim_descriptor : option string;        (* the size file, if it opens *)
  sim_mmap : Z -> Z;                     (* length to base or MAP_FAILED *)
  sim_channel : list (Z * list byte);    (* results of successive reads *)
  sim_regs : list (Z * Z);               (* address, value; newest first *)
  sim_stack : Z                          (* what uninitialised locals hold *)
}.

Fixpoint sim_lookup (addr : Z) (regs : list (Z * Z)) : Z :=
  match regs with
  | [] => 0
  | (a, v) :: regs' => if a =? addr then v else sim_lookup addr regs'
  end.

Definition sim_read (s : sim) : (Z * list byte) * sim :=
  match sim_channel s with
  | [] => ((-1, []), s)
  | r :: rest =>
      (r, MkSim (sim_open s) (sim_descriptor s) (sim_mmap s) rest
            (sim_regs s) (sim_stack s))
  end.

Definition sim_store (addr v : Z) (s : sim) : sim :=
  MkSim (sim_open s) (sim_descriptor s) (sim_mmap s) (sim_channel s)
    ((addr, v) :: sim_regs s) (sim_stack s).

#[export] Instance sim_platform : Platform sim := {
  os_open := fun _ _ s => (sim_open s, s);
  os_fopen := fun _ _ s => (sim_descriptor s, s);
  os_mmap := fun _ len _ _ _ _ s => (sim_mmap s len, s);
  os_read := fun _ _ s => sim_read s;
  os_write := fun _ buf s => (Z.of_nat (List.length buf), s);
  mmio_load := fun addr s => (sim_lookup addr (sim_regs s), s);
  mmio_store := sim_store;
  indeterminate := sim_stack
}.

(** The mapping primitive as POSIX has it: a request of length zero is
    refused, any other length is granted. *)
Definition posix_mmap (base : Z) (len : Z) : Z :=
  if len =? 0 then MAP_FAILED else base.

(** ** What the environment answers during one handshake

    The intermediate environments of one call of [wait_for_interrupt],
    named so that statements can refer to the value a register held at the
    moment it was loaded. *)

Section Handshake.

Context {Env : Type} {P : Platform Env}.
Variables fd gpio_ptr : Z.

(** the environment once the blocking read has returned *)
Definition after_read (e : Env) : Env :=
  snd (os_read fd sizeof_int e).

(** what the blocking read returned and transferred *)
Definition read_result (e : Env) : Z * list byte :=
  fst (os_read fd sizeof_int e).

(** the value IRQ_STATUS delivers when it is loaded *)
Definition irq_status (e : Env) : Z :=
  wrap32 (fst (mmio_load (gpio_ptr + GPIO_IRQ_STATUS) (after_read e))).

(** the environment after the acknowledge step *)
Definition after_ack (e : Env) : Env :=
  let e' := snd (mmio_load (gpio_ptr + GPIO_IRQ_STATUS) (after_read e)) in
  if irq_status e =? 0 then e'
  else mmio_store (gpio_ptr + GPIO_IRQ_STATUS) 2 e'.

(** the value DATA2 delivers when it is loaded *)
Definition data2 (e : Env) : Z :=
  wrap32 (fst (mmio_load (gpio_ptr + GPIO_DATA2_OFFSET) (after_ack e))).

Definition after_data2 (e : Env) : Env :=
  snd (mmio_load (gpio_ptr + GPIO_DATA2_OFFSET) (after_ack e)).

(** the line printed for a DATA2 value *)
Definition report (v : Z) : string :=
  ("GPIO_DATA2_OFFSET: 0x" ++ decimal (to_int v) ++ nl)%string.

(** the events of the Handling phase, which starts when the read returns *)
Definition handling_events (e : Env) : list event :=
  EvLoad (gpio_ptr + GPIO_IRQ_STATUS) (irq_status e)
  :: (if irq_status e =? 0 then []
      else [EvStore (gpio_ptr + GPIO_IRQ_STATUS) 2])
  ++ [ EvLoad (gpio_ptr + GPIO_DATA2_OFFSET) (data2 e);
       EvStdout (report (data2 e));
       EvWrite fd (encode_int 1)
         (fst (os_write fd (encode_int 1) (after_data2 e))) ].

(** the traces of [n] successive calls, each starting in the environment
    the previous one left *)
Fixpoint iterations (n : nat) (e : Env) : list (list event) :=
  match n with
  | O => []
  | S n' =>
      trace_of (wait_for_interrupt fd gpio_ptr e)
      :: iterations n' (env_of (wait_for_interrupt fd gpio_ptr e))
  end.

End Handshake.

(** ** What the environment answers during start-up *)

Section Startup.

Context {Env : Type} {P : Platform Env}.

Definition size_path : string := "/sys/class/uio/uio0/maps/map0/size".

(** the descriptor [open] returns, and the environment it leaves *)
Definition opened (e : Env) : Z * Env := os_open uiod O_RDWR e.

(** the answer to [fopen] of the region-size descriptor *)
Definition size_file (e : Env) : option string * Env :=
  os_fopen size_path "r" (snd (opened e)).

(** what [size] holds after the [fscanf] over [content] *)
Definition parsed_size (e : Env) (content : string) : Z :=
  hd (wrap32 (indeterminate (snd (opened e))))
     (snd (fscanf content "0x%08X")).

(** the answer of the mapping primitive *)
Definition mapped (e : Env) (content : string) : Z * Env :=
  os_mmap NULL (parsed_size e content) (Z.lor PROT_READ PROT_WRITE)
    MAP_SHARED (fst (opened e)) 0 (snd (size_file e)).

(** the environment once the GPIO block has been configured *)
Definition configured (e : Env) (content : string) : Env :=
  let gpio_ptr := fst (mapped e content) in
  mmio_store (gpio_ptr + GPIO_IRQ_CONTROL) 2
    (mmio_store (gpio_ptr + GPIO_GLOBAL_IRQ) 0x80000000
       (mmio_store (gpio_ptr + GPIO_TRI2_OFFSET) 0xF
          (mmio_store (gpio_ptr + GPIO_TRI_OFFSET) 0
             (snd (mapped e content))))).

(** the events of a start-up that got as far as the mapping call *)
Definition startup_events (e : Env) (content : string) : list event :=
  [ EvStdout ("GPIO UIO test." ++ nl)%string;
    EvOpen uiod O_RDWR (fst (opened e));
    EvFopen size_path "r" true;
    EvFclose;
    EvMmap (parsed_size e content) (fst (opened e)) 0
      (fst (mapped e content)) ].

(** the four register writes that configure the GPIO block *)
Definition configuration (gpio_ptr : Z) : list event :=
  [ EvStore (gpio_ptr + GPIO_TRI_OFFSET) 0;
    EvStore (gpio_ptr + GPIO_TRI2_OFFSET) 0xF;
    EvStore (gpio_ptr + GPIO_GLOBAL_IRQ) 0x80000000;
    EvStore (gpio_ptr + GPIO_IRQ_CONTROL) 2 ].

End Startup.

(** A start-up step that failed, as it shows in the trace. *)
Definition is_startup_failure (ev : event) : bool :=
  match ev with
  | EvOpen _ _ ret => ret =? -1
  | EvFopen _ _ opened => negb opened
  | EvMmap _ _ _ ret => ret =? MAP_FAILED
  | _ => false
  end.

(** The message the program prints for each failed step. *)
Definition diagnostic (ev : event) : option string :=
  match ev with
  | EvOpen path _ _ =>
      Some ("Invalid UIO device file:" ++ path ++ "." ++ nl)%string
  | EvFopen _ _ _ => Some ("unable to open the uio size file" ++ nl)%string
  | EvMmap _ _ _ _ => Some ("Mmap call failure." ++ nl)%string
  | _ => None
  end.

(** The events that only the interrupt loop and the configuration
    before it produce. *)
Definition is_device_access (ev : event) : bool :=
  match ev with
  | EvRead _ _ _ _ | EvWrite _ _ _ | EvLoad _ _ | EvStore _ _ => true
  | _ => false
  end.

(** A run that ended with status -1, right after a failed start-up step
    and the diagnostic for it, and that never touched the device. *)
Definition reported_failure {Env : Type} (r : run Env Z) : Prop :=
  exit_status (outcome_of r) = Some (-1)
  /\ (exists pre ev msg,
        trace_of r = pre ++ [ev; EvStdout msg]
        /\ is_startup_failure ev = true
        /\ diagnostic ev = Some msg)
  /\ filter is_device_access (trace_of r) = [].

(** The page size of the target's Linux: 4 KiB. *)
Definition page_size : Z := 4096.

(** A region of [len] bytes was mapped. *)
Definition maps_region (tr : list event) (len : Z) : Prop :=
  exists fd off base, In (EvMmap len fd off base) tr /\ base <> MAP_FAILED.

(** A call that stopped the process without any Handling action. *)
Definition fails_before_handling {Env : Type} (r : run Env unit) : Prop :=
  (exists status, outcome_of r = Exit status)
  /\ filter is_device_access (tl (trace_of r)) = [].

(** ** The text of a region size, as the specification describes it

    The descriptor reads [0xXXXXXXXX]: the two characters [0x] and eight
    hexadecimal digits.  Their value is given here in positional notation,
    independently of the way [fscanf] accumulates it. *)

Fixpoint position (c : ascii) (alphabet : string) (i : Z) : option Z :=
  match alphabet with
  | EmptyString => None
  | String a rest =>
      if Ascii.eqb c a then Some i else position c rest (i + 1)
  end.

(** A digit's value is its place among the sixteen digits, in either
    case. *)
Definition digit_value (c : ascii) : option Z :=
  match position c "0123456789abcdef" 0 with
  | Some v => Some v
  | None => position c "0123456789ABCDEF" 0
  end.

Definition is_hex (c : ascii) : bool :=
  match digit_value c with Some _ => true | None => false end.

Fixpoint hex_value (ds : list ascii) : Z :=
  match ds with
  | [] => 0
  | d :: ds' =>
      match digit_value d with Some v => v | None => 0 end
        * 16 ^ Z.of_nat (List.length ds')
      + hex_value ds'
  end.

Definition size_text (digits : list ascii) (rest : string) : string :=
  ("0x" ++ string_of_list_ascii digits ++ rest)%string.

(** ** Simulated runs used as concrete instances *)

Definition sim_base : Z := 0x40000000.

(** An interrupt is pending on channel 2, DATA2 holds 7, and the channel
    delivers the results in [script]. *)
Definition sim_pending (script : list (Z * list byte)) : sim :=
  MkSim 3 (Some "0x00010000") (posix_mmap sim_base) script
    [(sim_base + GPIO_IRQ_STATUS, 2); (sim_base + GPIO_DATA2_OFFSET, 7)] 0.

(** Start-up with the given answer to [open], descriptor and stack
    contents. *)
Definition sim_boot (fd : Z) (descriptor : option string) (stack : Z) : sim :=
  MkSim fd descriptor (posix_mmap sim_base) [] [] stack.

(** ** Further observations on traces *)

Definition banner : string := ("GPIO UIO test." ++ nl)%string.

Definition is_stdout (ev : event) : bool :=
  match ev with EvStdout _ => true | _ => false end.

Definition is_channel_read (ev : event) : bool :=
  match ev with EvRead _ _ _ _ => true | _ => false end.

Definition is_channel_event (ev : event) : bool :=
  is_channel_read ev || is_channel_write ev.

Definition is_munmap (ev : event) : bool :=
  match ev with EvMunmap _ _ => true | _ => false end.

Definition is_fopen_ok (ev : event) : bool :=
  match ev with EvFopen _ _ ok => ok | _ => false end.

Definition is_fclose (ev : event) : bool :=
  match ev with EvFclose => true | _ => false end.

Definition is_mmap (ev : event) : bool :=
  match ev with EvMmap _ _ _ _ => true | _ => false end.

(** [n] handshakes on the channel: a read ([true]) then a write
    ([false]), [n] times. *)
Fixpoint handshakes (n : nat) : list bool :=
  match n with
  | O => []
  | S n' => true :: false :: handshakes n'
  end.

(** The offset from [gpio_ptr] of the register an event accesses. *)
Definition register_offset (gpio_ptr : Z) (ev : event) : option Z :=
  match ev with
  | EvLoad a _ | EvStore a _ => Some (a - gpio_ptr)
  | _ => None
  end.

Definition registers_used : list Z :=
  [ GPIO_TRI_OFFSET; GPIO_TRI2_OFFSET; GPIO_GLOBAL_IRQ; GPIO_IRQ_CONTROL;
    GPIO_IRQ_STATUS; GPIO_DATA2_OFFSET ].

(** A platform whose registers behave as memory: a load returns what was
    last stored at the address. *)
Definition memory_like {Env : Type} (P : Platform Env) : Prop :=
  forall (a v : Z) (e : Env), fst (mmio_load a (mmio_store a v e)) = v.

Fixpoint all_space (s : string) : bool :=
  match s with
  | EmptyString => true
  | String c r => isspace c && all_space r
  end.

(** Text at which a hexadecimal number ends: the end of the input, or a
    character that is neither a hexadecimal digit nor an [x]. *)
Definition ends_number (rest : string) : bool :=
  match rest with
  | EmptyString => true
  | String c _ => negb (is_hex c) && negb (is_x c)
  end.

(** The first two characters of the text are [0] and a lower-case
    [x]. *)
Definition starts_with_0x (content : string) : bool :=
  match content with
  | String a (String b _) => Ascii.eqb a "0" && Ascii.eqb b "x"
  | _ => false
  end.

(** A size written less strictly than [0xXXXXXXXX]: white space may
    follow the [0x], and the digits may be fewer than eight. *)
Definition lax_size_text (ws : string) (digits : list ascii) (rest : string)
  : string :=
  ("0x" ++ ws ++ string_of_list_ascii digits ++ rest)%string.

(** An interrupt is pending and DATA2 holds [v]. *)
Definition sim_data2 (v : Z) : sim :=
  MkSim 3 (Some "0x00010000") (posix_mmap sim_base) [(4, encode_int 1)]
    [(sim_base + GPIO_IRQ_STATUS, 2); (sim_base + GPIO_DATA2_OFFSET, v)] 0.

(** * Properties *)

Arguments encode_int : simpl never.
Arguments decimal : simpl never.
Arguments wrap32 : simpl never.
Arguments to_int : simpl never.
Arguments overlay : simpl never.
Arguments fscanf : simpl never.

Lemma wrap32_small (v : Z) : 0 <= v < 2 ^ 32 -> wrap32 v = v.
Proof. intros H. unfold wrap32. apply Z.mod_small. exact H. Qed.

Lemma encode_int_1 : encode_int 1 = [x01; x00; x00; x00].
Proof. reflexivity. Qed.

Lemma firstn_encode_int (v : Z) :
  firstn (Z.to_nat sizeof_int) (encode_int v) = encode_int v.
Proof. reflexivity. Qed.

(** The trace of a bind is the concatenation of the traces of its parts. *)
Lemma bind_ret_run {Env A B} (m : proc Env A) (k : A -> proc Env B) e a :
  outcome_of (m e) = Ret a ->
  bind m k e =
    MkRun (outcome_of (k a (env_of (m e)))) (env_of (k a (env_of (m e))))
      (trace_of (m e) ++ trace_of (k a (env_of (m e)))).
Proof.
  unfold bind. destruct (m e) as [o e1 t1]. cbn [outcome_of env_of trace_of].
  intros ->. destruct (k a e1) as [o2 e2 t2]. reflexivity.
Qed.

Section HandshakeFacts.

Context {Env : Type} {P : Platform Env}.
Variables fd gpio_ptr : Z.

(** One call of [wait_for_interrupt], start to end. *)
Lemma wait_for_interrupt_run (e : Env) :
  wait_for_interrupt fd gpio_ptr e =
    MkRun (Ret tt)
      (snd (os_write fd (encode_int 1) (after_data2 fd gpio_ptr e)))
      (EvRead fd sizeof_int (fst (read_result fd e))
         (firstn (Z.to_nat sizeof_int) (snd (read_result fd e)))
       :: handling_events fd gpio_ptr e).
Proof.
  unfold handling_events, after_data2, data2, after_ack, irq_status,
    read_result, after_read, report.
  unfold wait_for_interrupt, bind, read, gpio_read, gpio_write, printf,
    write, ret.
  rewrite firstn_encode_int.
  destruct (os_read fd sizeof_int e) as [[n data] e1]. cbn [fst snd].
  cbn [outcome_of env_of trace_of].
  destruct (mmio_load (gpio_ptr + GPIO_IRQ_STATUS) e1) as [v1 e2].
  cbn [fst snd outcome_of env_of trace_of].
  destruct (wrap32 v1 =? 0); cbn [negb outcome_of env_of trace_of].
  - destruct (mmio_load (gpio_ptr + GPIO_DATA2_OFFSET) e2) as [v2 e3].
    cbn [fst snd outcome_of env_of trace_of].
    destruct (os_write fd (encode_int 1) e3) as [r e4].
    reflexivity.
  - change (wrap32 2) with 2.
    destruct (mmio_load (gpio_ptr + GPIO_DATA2_OFFSET)
                (mmio_store (gpio_ptr + GPIO_IRQ_STATUS) 2 e2)) as [v2 e3].
    cbn [fst snd outcome_of env_of trace_of].
    destruct (os_write fd (encode_int 1) e3) as [r e4].
    reflexivity.
Qed.

(** The trace of the loop is the traces of its iterations, one call of
    [wait_for_interrupt] each, laid end to end. *)
Lemma forever_trace (n : nat) :
  forall e : Env,
    trace_of (forever n (wait_for_interrupt fd gpio_ptr) e)
    = concat (iterations fd gpio_ptr n e).
Proof.
  induction n as [| n IH]; intros e; [reflexivity |].
  cbn [forever iterations concat].
  rewrite (bind_ret_run _ _ e tt)
    by (rewrite wait_for_interrupt_run; reflexivity).
  cbn [trace_of]. rewrite IH. reflexivity.
Qed.

End HandshakeFacts.

(** ** The report line identifies the value *)

Lemma append_cancel_l (p s t : string) :
  (p ++ s)%string = (p ++ t)%string -> s = t.
Proof.
  induction p as [| c p IH]; cbn [append]; intros H; [exact H |].
  injection H as H. apply IH. exact H.
Qed.

Lemma length_append (s t : string) :
  String.length (s ++ t) = (String.length s + String.length t)%nat.
Proof.
  induction s as [| c s IH]; cbn [append String.length]; [reflexivity |].
  rewrite IH. reflexivity.
Qed.

Lemma append_cancel_r (s t q : string) :
  (s ++ q)%string = (t ++ q)%string -> s = t.
Proof.
  revert t. induction s as [| c s IH]; intros [| d t] H;
    cbn [append] in H.
  - reflexivity.
  - apply (f_equal String.length) in H. cbn [String.length] in H.
    rewrite length_append in H. lia.
  - apply (f_equal String.length) in H. cbn [String.length] in H.
    rewrite length_append in H. lia.
  - injection H as Hc H. subst d. f_equal. apply IH. exact H.
Qed.

Lemma decimal_inj (a b : Z) : decimal a = decimal b -> a = b.
Proof.
  unfold decimal. intros H. apply to_int_inj.
  apply (f_equal NilZero.int_of_string) in H.
  rewrite !NilZero.isi in H;
    try (injection H as H; exact H);
    match goal with
    | |- Z.to_int ?z <> _ =>
        destruct z; cbn [Z.to_int]; try discriminate;
        intros Hnil; injection Hnil as Hnil;
        exact (Unsigned.to_uint_nonnil _ Hnil)
    end.
Qed.

Lemma to_int_inj32 (a b : Z) :
  0 <= a < 2 ^ 32 -> 0 <= b < 2 ^ 32 -> to_int a = to_int b -> a = b.
Proof.
  intros Ha Hb. unfold to_int.
  rewrite (wrap32_small a Ha), (wrap32_small b Hb).
  destruct (a <? 2 ^ 31) eqn:Ea; destruct (b <? 2 ^ 31) eqn:Eb;
    try apply Z.ltb_lt in Ea; try apply Z.ltb_ge in Ea;
    try apply Z.ltb_lt in Eb; try apply Z.ltb_ge in Eb; lia.
Qed.

(** X11: two register values with the same report line are the same
    value: the line printed for DATA2 identifies the 32-bit value that was
    loaded. *)
Lemma report_identifies_value (a b : Z) :
  0 <= a < 2 ^ 32 -> 0 <= b < 2 ^ 32 -> report a = report b -> a = b.
Proof.
  intros Ha Hb H. unfold report in H.
  apply append_cancel_l, append_cancel_r, decimal_inj in H.
  exact (to_int_inj32 a b Ha Hb H).
Qed.

Lemma cons_inv {A : Type} (a b : A) (l l' : list A) :
  a :: l = b :: l' -> a = b /\ l = l'.
Proof. intros H. injection H as Ha Hl. split; assumption. Qed.

(** Splitting a known trace around one of its events: walks down the
    trace, keeping the positions at which the event can sit. *)
Ltac locate H :=
  match type of H with
  | [] = ?pre ++ _ :: _ => destruct pre; discriminate H
  | _ :: _ = ?pre ++ _ :: _ =>
      let ev := fresh "ev" in
      let Hhd := fresh "Hhd" in
      let Htl := fresh "Htl" in
      destruct pre as [| ev pre]; cbn [app] in H;
      [ try discriminate H; apply cons_inv in H; destruct H as [Hhd Htl]
      | apply cons_inv in H; destruct H as [Hhd Htl]; subst ev; locate Htl ]
  end.

Section HandshakeProperties.

Context {Env : Type} {P : Platform Env}.
Variables fd gpio_ptr : Z.

Lemma status_is_not_data2 :
  (gpio_ptr + GPIO_DATA2_OFFSET =? gpio_ptr + GPIO_IRQ_STATUS) = false.
Proof. apply Z.eqb_neq. unfold GPIO_DATA2_OFFSET, GPIO_IRQ_STATUS. lia. Qed.

Lemma data2_is_not_status :
  (gpio_ptr + GPIO_IRQ_STATUS =? gpio_ptr + GPIO_DATA2_OFFSET) = false.
Proof. apply Z.eqb_neq. unfold GPIO_DATA2_OFFSET, GPIO_IRQ_STATUS. lia. Qed.

(** C4: in each Handling phase IRQ_STATUS is loaded once; when the value
    loaded is zero no register is written at all, and when it is not zero
    the only register write is the constant 2 to IRQ_STATUS. *)
Theorem acknowledge_only_when_pending (e : Env) :
  let tr := trace_of (wait_for_interrupt fd gpio_ptr e) in
  filter (is_load_from (gpio_ptr + GPIO_IRQ_STATUS)) tr
    = [EvLoad (gpio_ptr + GPIO_IRQ_STATUS) (irq_status fd gpio_ptr e)]
  /\ filter is_store tr
    = if irq_status fd gpio_ptr e =? 0 then []
      else [EvStore (gpio_ptr + GPIO_IRQ_STATUS) 2].
Proof.
  rewrite wait_for_interrupt_run. cbn [trace_of]. unfold handling_events.
  destruct (irq_status fd gpio_ptr e =? 0);
    cbn [app filter is_load_from is_store];
    rewrite Z.eqb_refl, status_is_not_data2; split; reflexivity.
Qed.

(** C9: every call of [wait_for_interrupt] writes the four bytes of the
    value 1 to the notification channel exactly once, whatever IRQ_STATUS
    held; [n] iterations of the loop therefore write [n] times. *)
Theorem reenable_once_per_iteration (e : Env) :
  filter is_channel_write (trace_of (wait_for_interrupt fd gpio_ptr e))
    = [EvWrite fd [x01; x00; x00; x00]
         (fst (os_write fd (encode_int 1) (after_data2 fd gpio_ptr e)))]
  /\ forall n e0,
       count is_channel_write
         (trace_of (forever n (wait_for_interrupt fd gpio_ptr) e0)) = n.
Proof.
  assert (Hone : forall e1,
    filter is_channel_write (trace_of (wait_for_interrupt fd gpio_ptr e1))
      = [EvWrite fd [x01; x00; x00; x00]
           (fst (os_write fd (encode_int 1) (after_data2 fd gpio_ptr e1)))]).
  { intros e1. rewrite wait_for_interrupt_run. cbn [trace_of].
    unfold handling_events.
    destruct (irq_status fd gpio_ptr e1 =? 0);
      cbn [app filter is_channel_write]; rewrite encode_int_1; reflexivity. }
  split; [apply Hone |].
  induction n as [| n IH]; intros e0.
  - reflexivity.
  - cbn [forever].
    rewrite (bind_ret_run _ _ e0 tt)
      by (rewrite wait_for_interrupt_run; reflexivity).
    cbn [trace_of]. unfold count in *.
    rewrite filter_app, length_app, Hone, IH. reflexivity.
Qed.

(** C1: when a call of [wait_for_interrupt] acknowledges, that is, writes
    2 to IRQ_STATUS, nothing has been written to the notification channel
    before that write, and the reenable value is written to the channel
    after it, as the last action of the call. *)
Theorem acknowledge_precedes_reenable (e : Env) (pre post : list event) :
  trace_of (wait_for_interrupt fd gpio_ptr e)
    = pre ++ EvStore (gpio_ptr + GPIO_IRQ_STATUS) 2 :: post ->
  filter is_channel_write pre = []
  /\ exists mid ret,
       post = mid ++ [EvWrite fd (encode_int 1) ret]
       /\ List.length (encode_int 1) = 4%nat
       /\ filter is_channel_write mid = [].
Proof.
  rewrite wait_for_interrupt_run. cbn [trace_of]. unfold handling_events.
  destruct (irq_status fd gpio_ptr e =? 0); cbn [app]; intros H.
  - locate H.
  - locate H. subst post. split; [reflexivity |].
    eexists [_; _], _. split; [reflexivity |]. split; reflexivity.
Qed.

(** C5: after the acknowledge step the call loads DATA2, prints the line
    that reports the value loaded, and writes the value 1 to the
    notification channel, in this order and with nothing in between;
    DATA2 is loaded exactly once in the whole call. *)
Theorem handling_reports_then_reenables (e : Env) :
  let tr := trace_of (wait_for_interrupt fd gpio_ptr e) in
  exists ack ret,
    tr = ack ++ [ EvLoad (gpio_ptr + GPIO_DATA2_OFFSET) (data2 fd gpio_ptr e);
                  EvStdout (report (data2 fd gpio_ptr e));
                  EvWrite fd (encode_int 1) ret ]
    /\ filter (is_load_from (gpio_ptr + GPIO_IRQ_STATUS)) ack
       = [EvLoad (gpio_ptr + GPIO_IRQ_STATUS) (irq_status fd gpio_ptr e)]
    /\ filter is_store ack = filter is_store tr
    /\ count (is_load_from (gpio_ptr + GPIO_DATA2_OFFSET)) tr = 1%nat.
Proof.
  rewrite wait_for_interrupt_run. cbn [trace_of]. unfold handling_events.
  destruct (irq_status fd gpio_ptr e =? 0); cbn [app].
  - eexists [_; _], _. split; [reflexivity |].
    unfold count. cbn [app filter is_load_from is_store].
    rewrite !Z.eqb_refl, data2_is_not_status. repeat split; reflexivity.
  - eexists [_; _; _], _. split; [reflexivity |].
    unfold count. cbn [app filter is_load_from is_store].
    rewrite !Z.eqb_refl, data2_is_not_status. repeat split; reflexivity.
Qed.

(** C10: two calls whose blocking reads deliver different results but
    leave the environment in the same state go through the same Handling
    phase: after the read event the two traces are equal, and so are the
    final environments and the outcomes. *)
Theorem handling_independent_of_count (e1 e2 : Env) :
  after_read fd e1 = after_read fd e2 ->
  tl (trace_of (wait_for_interrupt fd gpio_ptr e1))
    = tl (trace_of (wait_for_interrupt fd gpio_ptr e2))
  /\ env_of (wait_for_interrupt fd gpio_ptr e1)
     = env_of (wait_for_interrupt fd gpio_ptr e2)
  /\ outcome_of (wait_for_interrupt fd gpio_ptr e1)
     = outcome_of (wait_for_interrupt fd gpio_ptr e2).
Proof.
  intros H. rewrite !wait_for_interrupt_run. cbn [tl trace_of env_of outcome_of].
  unfold handling_events, after_data2, data2, after_ack, irq_status.
  rewrite H. repeat split; reflexivity.
Qed.

End HandshakeProperties.

Section ShortRead.

Context {Env : Type} {P : Platform Env}.
Variables fd gpio_ptr : Z.

(** C3, as the program has it: when the read on the notification channel
    returns fewer than 4 bytes, the call does not notice.  The return
    value of [read] is dropped, the whole Handling phase follows the read,
    and the call returns normally. *)
Theorem short_read_proceeds_to_handling (e : Env) :
  fst (read_result fd e) < sizeof_int ->
  outcome_of (wait_for_interrupt fd gpio_ptr e) = Ret tt
  /\ trace_of (wait_for_interrupt fd gpio_ptr e)
     = EvRead fd sizeof_int (fst (read_result fd e))
         (firstn (Z.to_nat sizeof_int) (snd (read_result fd e)))
       :: handling_events fd gpio_ptr e
  /\ exists ret,
       last (trace_of (wait_for_interrupt fd gpio_ptr e)) EvFclose
       = EvWrite fd (encode_int 1) ret.
Proof.
  intros _. rewrite wait_for_interrupt_run. cbn [outcome_of trace_of].
  split; [reflexivity |]. split; [reflexivity |].
  unfold handling_events. eexists.
  destruct (irq_status fd gpio_ptr e =? 0); reflexivity.
Qed.

End ShortRead.

(** C1, on the simulated backend with an interrupt pending: the trace
    splits around the write of 2 to IRQ_STATUS. *)
Lemma acknowledge_precedes_reenable_witness :
  trace_of (wait_for_interrupt 3 sim_base (sim_pending [(4, encode_int 1)]))
    = [ EvRead 3 4 4 (encode_int 1);
        EvLoad (sim_base + GPIO_IRQ_STATUS) 2 ]
      ++ EvStore (sim_base + GPIO_IRQ_STATUS) 2
      :: [ EvLoad (sim_base + GPIO_DATA2_OFFSET) 7;
           EvStdout (report 7);
           EvWrite 3 (encode_int 1) 4 ]
  /\ (filter is_channel_write
        [ EvRead 3 4 4 (encode_int 1);
          EvLoad (sim_base + GPIO_IRQ_STATUS) 2 ] = []
      /\ exists mid ret,
           [ EvLoad (sim_base + GPIO_DATA2_OFFSET) 7;
             EvStdout (report 7);
             EvWrite 3 (encode_int 1) 4 ]
           = mid ++ [EvWrite 3 (encode_int 1) ret]
           /\ List.length (encode_int 1) = 4%nat
           /\ filter is_channel_write mid = []).
Proof.
  split.
  - vm_compute. reflexivity.
  - apply (acknowledge_precedes_reenable 3 sim_base
             (sim_pending [(4, encode_int 1)])).
    vm_compute. reflexivity.
Defined.

(** C10, on the simulated backend: a count of 1 and a count of 7 lead to
    the same Handling phase. *)
Lemma handling_independent_of_count_witness :
  after_read 3 (sim_pending [(4, encode_int 1)])
    = after_read 3 (sim_pending [(4, encode_int 7)])
  /\ (tl (trace_of (wait_for_interrupt 3 sim_base
                      (sim_pending [(4, encode_int 1)])))
        = tl (trace_of (wait_for_interrupt 3 sim_base
                          (sim_pending [(4, encode_int 7)])))
      /\ env_of (wait_for_interrupt 3 sim_base
                   (sim_pending [(4, encode_int 1)]))
         = env_of (wait_for_interrupt 3 sim_base
                     (sim_pending [(4, encode_int 7)]))
      /\ outcome_of (wait_for_interrupt 3 sim_base
                       (sim_pending [(4, encode_int 1)]))
         = outcome_of (wait_for_interrupt 3 sim_base
                         (sim_pending [(4, encode_int 7)]))).
Proof.
  split.
  - reflexivity.
  - apply (handling_independent_of_count 3 sim_base
             (sim_pending [(4, encode_int 1)])
             (sim_pending [(4, encode_int 7)])).
    reflexivity.
Defined.

(** C3 does not hold of the program: on the simulated backend a read that
    transfers only 2 bytes is followed by the acknowledge, the report and
    the reenable write, and the call returns. *)
Lemma short_read_is_not_detected :
  read_result 3 (sim_pending [(2, [xff; xff])]) = (2, [xff; xff])
  /\ outcome_of (wait_for_interrupt 3 sim_base
                   (sim_pending [(2, [xff; xff])])) = Ret tt
  /\ trace_of (wait_for_interrupt 3 sim_base
                 (sim_pending [(2, [xff; xff])]))
     = [ EvRead 3 4 2 [xff; xff];
         EvLoad (sim_base + GPIO_IRQ_STATUS) 2;
         EvStore (sim_base + GPIO_IRQ_STATUS) 2;
         EvLoad (sim_base + GPIO_DATA2_OFFSET) 7;
         EvStdout (report 7);
         EvWrite 3 [x01; x00; x00; x00] 4 ]
  /\ ~ fails_before_handling
         (wait_for_interrupt 3 sim_base (sim_pending [(2, [xff; xff])])).
Proof.
  split; [reflexivity |].
  split; [vm_compute; reflexivity |].
  split; [vm_compute; reflexivity |].
  intros [[status Hexit] _]. vm_compute in Hexit. discriminate Hexit.
Qed.

(** C3 as amended, on the same short read. *)
Lemma short_read_proceeds_to_handling_witness :
  fst (read_result 3 (sim_pending [(2, [xff; xff])])) < sizeof_int
  /\ (outcome_of (wait_for_interrupt 3 sim_base
                    (sim_pending [(2, [xff; xff])])) = Ret tt
      /\ trace_of (wait_for_interrupt 3 sim_base
                     (sim_pending [(2, [xff; xff])]))
         = EvRead 3 sizeof_int
             (fst (read_result 3 (sim_pending [(2, [xff; xff])])))
             (firstn (Z.to_nat sizeof_int)
                (snd (read_result 3 (sim_pending [(2, [xff; xff])]))))
           :: handling_events 3 sim_base (sim_pending [(2, [xff; xff])])
      /\ exists ret,
           last (trace_of (wait_for_interrupt 3 sim_base
                             (sim_pending [(2, [xff; xff])]))) EvFclose
           = EvWrite 3 (encode_int 1) ret).
Proof.
  split.
  - vm_compute. reflexivity.
  - apply (short_read_proceeds_to_handling 3 sim_base
             (sim_pending [(2, [xff; xff])])).
    vm_compute. reflexivity.
Defined.

(** ** The region-size parser *)

Lemma parse_size_format :
  parse_format "0x%08X" = [DLit "0"; DLit "x"; DHex 8].
Proof. reflexivity. Qed.

(** [fscanf]'s digit conversion agrees with the table of hexadecimal
    digits, character by character. *)
Lemma hex_digit_table (c : ascii) : hex_digit c = digit_value c.
Proof.
  destruct c as [b0 b1 b2 b3 b4 b5 b6 b7].
  destruct b0, b1, b2, b3, b4, b5, b6, b7; reflexivity.
Qed.

(** A hexadecimal digit is no white space, no sign and no [x]; its value
    is below 16. *)
Lemma is_hex_facts (c : ascii) :
  is_hex c = true ->
  isspace c = false /\ is_sign c = false /\ is_x c = false
  /\ exists d, digit_value c = Some d /\ 0 <= d < 16.
Proof.
  destruct c as [b0 b1 b2 b3 b4 b5 b6 b7].
  destruct b0, b1, b2, b3, b4, b5, b6, b7;
    (discriminate 1 ||
     (intros _; repeat split; try reflexivity; eexists; split;
      [reflexivity | lia])).
Qed.

Lemma hex_value_bound (ds : list ascii) :
  forallb is_hex ds = true ->
  0 <= hex_value ds < 16 ^ Z.of_nat (List.length ds).
Proof.
  induction ds as [| d ds IH]; intros H.
  - cbn. lia.
  - cbn [forallb] in H. apply andb_true_iff in H. destruct H as [Hd Hds].
    specialize (IH Hds).
    destruct (is_hex_facts d Hd) as (_ & _ & _ & v & Hv & Hrange).
    cbn [hex_value List.length]. rewrite Hv.
    rewrite Nat2Z.inj_succ, Z.pow_succ_r by lia.
    nia.
Qed.

(** Taking the digits [ds], all of them, continues the accumulator in
    base 16. *)
Lemma take_hex_digits (ds : list ascii) (rest : string) :
  forallb is_hex ds = true -> ds <> [] ->
  forall acc,
    take_hex (List.length ds) (string_of_list_ascii ds ++ rest)%string acc
    = (Some (match acc with Some a => a | None => 0 end
             * 16 ^ Z.of_nat (List.length ds) + hex_value ds), rest).
Proof.
  induction ds as [| d ds IH]; intros H Hne acc; [congruence |].
  cbn [forallb] in H. apply andb_true_iff in H. destruct H as [Hd Hds].
  destruct (is_hex_facts d Hd) as (_ & _ & _ & v & Hv & Hrange).
  cbn [List.length string_of_list_ascii append take_hex hex_value].
  rewrite hex_digit_table, Hv.
  destruct ds as [| d' ds'].
  - cbn [List.length string_of_list_ascii append take_hex hex_value].
    change (Z.of_nat 1) with 1. change (Z.of_nat 0) with 0.
    rewrite Z.pow_1_r, Z.pow_0_r.
    destruct rest; f_equal; f_equal; lia.
  - rewrite (IH Hds) by discriminate.
    f_equal. f_equal.
    set (n := List.length (d' :: ds')).
    rewrite Nat2Z.inj_succ, Z.pow_succ_r by lia.
    set (a := match acc with Some a => a | None => 0 end).
    ring.
Qed.

(** The conversion [%08X] over eight hexadecimal digits takes exactly
    these digits and yields their value. *)
Lemma scan_hex_eight (ds : list ascii) (rest : string) :
  List.length ds = 8%nat -> forallb is_hex ds = true ->
  scan_hex 8 (string_of_list_ascii ds ++ rest)%string
  = ConvOk (hex_value ds) rest.
Proof.
  intros Hlen Hhex.
  pose proof (hex_value_bound ds Hhex) as Hbound. rewrite Hlen in Hbound.
  pose proof (take_hex_digits ds rest Hhex) as Htake. rewrite Hlen in Htake.
  destruct ds as [| d1 [| d2 ds]]; try discriminate Hlen.
  cbn [forallb] in Hhex.
  apply andb_true_iff in Hhex. destruct Hhex as [H1 Hhex].
  apply andb_true_iff in Hhex. destruct Hhex as [H2 _].
  destruct (is_hex_facts d1 H1) as (Hsp & Hsg & _ & _).
  destruct (is_hex_facts d2 H2) as (_ & _ & Hx & _).
  unfold scan_hex.
  cbn [string_of_list_ascii append skip_space] in *.
  rewrite Hsp, Hsg. cbn [andb].
  rewrite Hx, andb_false_r. cbn [andb].
  rewrite Htake by discriminate.
  rewrite wrap32_small; [reflexivity |].
  change (2 ^ 32) with (16 ^ Z.of_nat 8). lia.
Qed.

Lemma fscanf_size_text (ds : list ascii) (rest : string) :
  List.length ds = 8%nat -> forallb is_hex ds = true ->
  fscanf (size_text ds rest) "0x%08X" = (1, [hex_value ds]).
Proof.
  intros Hlen Hhex. unfold fscanf, size_text.
  rewrite parse_size_format.
  cbn [append scan]. change (ascii_code "0" =? ascii_code "0") with true.
  change (ascii_code "x" =? ascii_code "x") with true. cbn iota.
  rewrite (scan_hex_eight ds rest Hlen Hhex).
  reflexivity.
Qed.

Lemma scan_hex_range (w : nat) (input : string) (v : Z) (rest : string) :
  scan_hex w input = ConvOk v rest -> 0 <= v < 2 ^ 32.
Proof.
  unfold scan_hex. intros Hconv.
  repeat match type of Hconv with
         | context [match ?x with _ => _ end] => destruct x
         end;
    try discriminate Hconv;
    injection Hconv as <- _; apply Z.mod_pos_bound; lia.
Qed.

(** Every value [fscanf] assigns fits an [unsigned int]. *)
Lemma scan_range (ds : list directive) :
  forall input assigned,
    Forall (fun v => 0 <= v < 2 ^ 32) assigned ->
    Forall (fun v => 0 <= v < 2 ^ 32) (snd (scan ds input assigned)).
Proof.
  induction ds as [| d ds IH]; intros input assigned H; [exact H |].
  destruct d as [c | w |]; cbn [scan].
  - destruct input as [| c' r]; [exact H |].
    destruct (ascii_code c =? ascii_code c'); [apply IH |]; exact H.
  - destruct (scan_hex w input) as [v rest | |] eqn:Hconv; try exact H.
    apply IH. apply Forall_app. split; [exact H |].
    constructor; [| constructor].
    exact (scan_hex_range w input v rest Hconv).
  - exact H.
Qed.

Section RegionSize.

Context {Env : Type} {P : Platform Env}.

(** One call of [get_memory_size], start to end. *)
Lemma get_memory_size_run (path : string) (e : Env) :
  get_memory_size path e =
    match os_fopen path "r" e with
    | (Some content, e') =>
        MkRun (Ret (hd (wrap32 (indeterminate e))
                      (snd (fscanf content "0x%08X"))))
          e' [EvFopen path "r" true; EvFclose]
    | (None, e') =>
        MkRun (Exit (-1)) e'
          [ EvFopen path "r" false;
            EvStdout ("unable to open the uio size file" ++ nl)%string ]
    end.
Proof.
  unfold get_memory_size, bind, uninitialised, fopen, fclose, printf, exit,
    ret.
  cbn [outcome_of env_of trace_of app].
  destruct (os_fopen path "r" e) as [[content |] e']; reflexivity.
Qed.

(** C6: when the descriptor opens and reads [0x] followed by eight
    hexadecimal digits, whatever comes after them, [get_memory_size]
    returns the number these digits denote; it prints nothing and does not
    exit. *)
Theorem get_memory_size_returns_hex_value
    (path : string) (e e' : Env) (digits : list ascii) (rest : string) :
  os_fopen path "r" e = (Some (size_text digits rest), e') ->
  List.length digits = 8%nat ->
  forallb is_hex digits = true ->
  get_memory_size path e
  = MkRun (Ret (hex_value digits)) e' [EvFopen path "r" true; EvFclose].
Proof.
  intros Hopen Hlen Hhex.
  rewrite get_memory_size_run, Hopen.
  rewrite (fscanf_size_text digits rest Hlen Hhex).
  reflexivity.
Qed.

(** C2, what the program does instead: when the descriptor opens but
    [fscanf] assigns nothing, [get_memory_size] prints no diagnostic and
    does not exit; it returns whatever the uninitialised [size] held. *)
Theorem unparsed_size_is_indeterminate
    (path : string) (e e' : Env) (content : string) :
  os_fopen path "r" e = (Some content, e') ->
  snd (fscanf content "0x%08X") = [] ->
  get_memory_size path e
  = MkRun (Ret (wrap32 (indeterminate e))) e'
      [EvFopen path "r" true; EvFclose].
Proof.
  intros Hopen Hscan.
  rewrite get_memory_size_run, Hopen, Hscan.
  reflexivity.
Qed.

End RegionSize.

(** C6 on the descriptor [0x00010000]: the size returned is 65536. *)
Lemma get_memory_size_returns_hex_value_witness :
  os_fopen size_path "r" (sim_boot 3 (Some "0x00010000") 0)
    = (Some (size_text ["0"; "0"; "0"; "1"; "0"; "0"; "0"; "0"]%char
               EmptyString),
       sim_boot 3 (Some "0x00010000") 0)
  /\ List.length ["0"; "0"; "0"; "1"; "0"; "0"; "0"; "0"]%char = 8%nat
  /\ forallb is_hex ["0"; "0"; "0"; "1"; "0"; "0"; "0"; "0"]%char = true
  /\ get_memory_size size_path (sim_boot 3 (Some "0x00010000") 0)
     = MkRun (Ret 65536) (sim_boot 3 (Some "0x00010000") 0)
         [EvFopen size_path "r" true; EvFclose].
Proof.
  split; [reflexivity |]. split; [reflexivity |]. split; [reflexivity |].
  apply (get_memory_size_returns_hex_value size_path
           (sim_boot 3 (Some "0x00010000") 0)
           (sim_boot 3 (Some "0x00010000") 0)
           ["0"; "0"; "0"; "1"; "0"; "0"; "0"; "0"]%char EmptyString);
    reflexivity.
Defined.

(** C2 on a descriptor that reads [65536], with 12345 left on the stack:
    the call returns 12345 and reports nothing. *)
Lemma unparsed_size_is_indeterminate_witness :
  os_fopen size_path "r" (sim_boot 3 (Some "65536") 12345)
    = (Some "65536", sim_boot 3 (Some "65536") 12345)
  /\ snd (fscanf "65536" "0x%08X") = []
  /\ get_memory_size size_path (sim_boot 3 (Some "65536") 12345)
     = MkRun (Ret 12345) (sim_boot 3 (Some "65536") 12345)
         [EvFopen size_path "r" true; EvFclose].
Proof.
  split; [reflexivity |]. split; [reflexivity |].
  exact (unparsed_size_is_indeterminate size_path
           (sim_boot 3 (Some "65536") 12345)
           (sim_boot 3 (Some "65536") 12345) "65536" eq_refl eq_refl).
Defined.

(** ** Start-up *)

Lemma size_t_of_int (x : Z) :
  0 <= x < 2 ^ 32 -> to_size_t (to_int x) = x.
Proof.
  intros H. unfold to_size_t, to_int. rewrite (wrap32_small x H).
  destruct (x <? 2 ^ 31).
  - apply wrap32_small. exact H.
  - unfold wrap32.
    replace (x - 2 ^ 32) with (x + (-1) * 2 ^ 32) by ring.
    rewrite Z_mod_plus_full. apply Z.mod_small. exact H.
Qed.

Section StartupFacts.

Context {Env : Type} {P : Platform Env}.

(** The loop never returns: whatever the fuel, the run is still inside
    [while (1)] when it is used up. *)
Lemma forever_spins (fd gpio_ptr : Z) (n : nat) :
  forall e : Env,
    outcome_of (forever n (wait_for_interrupt fd gpio_ptr) e) = Spin.
Proof.
  induction n as [| n IH]; intros e; [reflexivity |].
  cbn [forever].
  rewrite (bind_ret_run _ _ e tt)
    by (rewrite wait_for_interrupt_run; reflexivity).
  cbn [outcome_of]. apply IH.
Qed.

Lemma forever_no_failure (fd gpio_ptr : Z) (n : nat) :
  forall e : Env,
    existsb is_startup_failure
      (trace_of (forever n (wait_for_interrupt fd gpio_ptr) e)) = false.
Proof.
  induction n as [| n IH]; intros e; [reflexivity |].
  cbn [forever].
  rewrite (bind_ret_run _ _ e tt)
    by (rewrite wait_for_interrupt_run; reflexivity).
  cbn [trace_of]. rewrite existsb_app, IH, orb_false_r.
  rewrite wait_for_interrupt_run. cbn [trace_of]. unfold handling_events.
  destruct (irq_status fd gpio_ptr e =? 0); reflexivity.
Qed.

Lemma parsed_size_range (e : Env) (content : string) :
  0 <= parsed_size e content < 2 ^ 32.
Proof.
  unfold parsed_size, fscanf.
  pose proof (scan_range (parse_format "0x%08X") content [] (Forall_nil _))
    as H.
  destruct (snd (scan (parse_format "0x%08X") content [])) as [| v l].
  - cbn [hd]. apply Z.mod_pos_bound. lia.
  - cbn [hd]. inversion H; assumption.
Qed.

(** One run of [main], start to end, by the answers of the platform. *)
Lemma main_run (fuel : nat) (e : Env) :
  main fuel e =
    if fst (opened e) <? 1 then
      MkRun (Ret (-1)) (snd (opened e))
        [ EvStdout ("GPIO UIO test." ++ nl)%string;
          EvOpen uiod O_RDWR (fst (opened e));
          EvStdout ("Invalid UIO device file:" ++ uiod ++ "." ++ nl)%string ]
    else
      match fst (size_file e) with
      | None =>
          MkRun (Exit (-1)) (snd (size_file e))
            [ EvStdout ("GPIO UIO test." ++ nl)%string;
              EvOpen uiod O_RDWR (fst (opened e));
              EvFopen size_path "r" false;
              EvStdout ("unable to open the uio size file" ++ nl)%string ]
      | Some content =>
          if fst (mapped e content) =? MAP_FAILED then
            MkRun (Ret (-1)) (snd (mapped e content))
              (startup_events e content
               ++ [EvStdout ("Mmap call failure." ++ nl)%string])
          else
            MkRun Spin
              (env_of (forever fuel
                         (wait_for_interrupt (fst (opened e))
                            (fst (mapped e content)))
                         (configured e content)))
              (startup_events e content
               ++ configuration (fst (mapped e content))
               ++ trace_of (forever fuel
                              (wait_for_interrupt (fst (opened e))
                                 (fst (mapped e content)))
                              (configured e content)))
      end.
Proof.
  pose proof (parsed_size_range e) as Hrange.
  unfold main, startup_events, configured, mapped, parsed_size, size_file,
    opened, size_path in *.
  unfold bind, printf, open, mmap, gpio_write, munmap, ret.
  cbn [outcome_of env_of trace_of].
  destruct (os_open uiod O_RDWR e) as [fd e1].
  cbn [fst snd outcome_of env_of trace_of] in *.
  destruct (fd <? 1); [reflexivity |].
  rewrite get_memory_size_run.
  destruct (os_fopen "/sys/class/uio/uio0/maps/map0/size" "r" e1)
    as [[content |] e2]; cbn [fst snd outcome_of env_of trace_of];
    [| reflexivity].
  rewrite (size_t_of_int _ (Hrange content)).
  destruct (os_mmap NULL
              (hd (wrap32 (indeterminate e1)) (snd (fscanf content "0x%08X")))
              (Z.lor PROT_READ PROT_WRITE) MAP_SHARED fd 0 e2) as [p e3].
  cbn [fst snd outcome_of env_of trace_of].
  destruct (p =? MAP_FAILED); cbn [outcome_of env_of trace_of];
    [reflexivity |].
  change (wrap32 0) with 0. change (wrap32 0xF) with 0xF.
  change (wrap32 0x80000000) with 0x80000000. change (wrap32 2) with 2.
  match goal with
  | |- context [forever fuel ?body ?env] =>
      pose proof (forever_spins fd p fuel env) as Hspin;
      destruct (forever fuel body env) as [o e4 t4]
  end.
  cbn [outcome_of env_of trace_of] in *. subst o. reflexivity.
Qed.

End StartupFacts.

Section StartupProperties.

Context {Env : Type} {P : Platform Env}.

(** C8: when a start-up step fails, be it the open of the notification
    channel, the open of the region-size descriptor or the mapping, the
    program prints the diagnostic for that step as its last action and ends
    with status -1; it has not read the channel nor touched a register. *)
Theorem startup_failure_is_reported (fuel : nat) (e : Env) :
  existsb is_startup_failure (trace_of (main fuel e)) = true ->
  reported_failure (main fuel e).
Proof.
  rewrite main_run. unfold reported_failure.
  destruct (fst (opened e) <? 1) eqn:Hfd.
  - cbn [trace_of outcome_of existsb is_startup_failure orb]. intros H.
    rewrite orb_false_r in H.
    split; [reflexivity |]. split; [| reflexivity].
    eexists [_], _, _. split; [reflexivity |]. split; [exact H | reflexivity].
  - destruct (fst (size_file e)) as [content |].
    + destruct (fst (mapped e content) =? MAP_FAILED) eqn:Hp.
      * intros _. cbn [trace_of outcome_of].
        split; [reflexivity |]. split; [| reflexivity].
        unfold startup_events.
        eexists [_; _; _; _], _, _. split; [reflexivity |].
        split; [exact Hp | reflexivity].
      * cbn [trace_of]. rewrite !existsb_app, forever_no_failure.
        unfold startup_events.
        cbn [existsb is_startup_failure configuration orb negb].
        rewrite Hp.
        replace (fst (opened e) =? -1) with false
          by (symmetry; apply Z.eqb_neq; apply Z.ltb_ge in Hfd; lia).
        discriminate 1.
    + intros _. cbn [trace_of outcome_of].
      split; [reflexivity |]. split; [| reflexivity].
      eexists [_; _], _, _. split; [reflexivity |]. split; reflexivity.
Qed.

(** C7, as the program has it: the length parsed from the descriptor goes
    to the mapping primitive unchanged and the program checks nothing but
    the primitive's answer.  On [MAP_FAILED] it prints its diagnostic and
    returns -1 without touching a register; on any other answer the region
    is in use, whatever its length: the GPIO block is configured through it
    and the loop is entered. *)
Theorem mapping_follows_the_primitive
    (fuel : nat) (e : Env) (content : string) :
  1 <= fst (opened e) ->
  fst (size_file e) = Some content ->
  (fst (mapped e content) = MAP_FAILED ->
     main fuel e
     = MkRun (Ret (-1)) (snd (mapped e content))
         (startup_events e content
          ++ [EvStdout ("Mmap call failure." ++ nl)%string]))
  /\ (fst (mapped e content) <> MAP_FAILED ->
        maps_region (trace_of (main fuel e)) (parsed_size e content)
        /\ outcome_of (main fuel e) = Spin
        /\ exists loop,
             trace_of (main fuel e)
             = startup_events e content
               ++ configuration (fst (mapped e content)) ++ loop).
Proof.
  intros Hfd Hfile. rewrite main_run.
  replace (fst (opened e) <? 1) with false
    by (symmetry; apply Z.ltb_ge; lia).
  rewrite Hfile. split; intros Hp.
  - rewrite Hp, Z.eqb_refl. reflexivity.
  - apply Z.eqb_neq in Hp. rewrite Hp. cbn [trace_of outcome_of].
    split; [| split; [reflexivity | eexists; reflexivity]].
    exists (fst (opened e)), 0, (fst (mapped e content)).
    split; [| apply Z.eqb_neq; exact Hp].
    apply in_or_app. left. unfold startup_events.
    do 4 right. left. reflexivity.
Qed.

End StartupProperties.

(** C8 on three simulated start-ups: [open] answers -1; the descriptor
    does not open; the mapping of a region of length zero is refused. *)
Lemma startup_failure_is_reported_witness :
  (existsb is_startup_failure
     (trace_of (main 1 (sim_boot (-1) (Some "0x00010000") 0))) = true
   /\ reported_failure (main 1 (sim_boot (-1) (Some "0x00010000") 0)))
  /\ (existsb is_startup_failure
        (trace_of (main 1 (sim_boot 3 None 0))) = true
      /\ reported_failure (main 1 (sim_boot 3 None 0)))
  /\ (existsb is_startup_failure
        (trace_of (main 1 (sim_boot 3 (Some "0x00000000") 0))) = true
      /\ reported_failure (main 1 (sim_boot 3 (Some "0x00000000") 0))).
Proof.
  split; [| split].
  - split; [vm_compute; reflexivity |].
    apply (startup_failure_is_reported 1
             (sim_boot (-1) (Some "0x00010000") 0)).
    vm_compute. reflexivity.
  - split; [vm_compute; reflexivity |].
    apply (startup_failure_is_reported 1 (sim_boot 3 None 0)).
    vm_compute. reflexivity.
  - split; [vm_compute; reflexivity |].
    apply (startup_failure_is_reported 1
             (sim_boot 3 (Some "0x00000000") 0)).
    vm_compute. reflexivity.
Defined.

(** C7 does not hold of the program: with a descriptor that reads
    [0x00000100] and a mapping primitive that grants every length but
    zero, a region of 256 bytes, which is no multiple of the page size, is
    mapped; the program reports no failure, configures the GPIO block and
    enters the loop. *)
Lemma unaligned_region_is_mapped :
  maps_region (trace_of (main 1 (sim_boot 3 (Some "0x00000100") 0))) 256
  /\ ~ (0 < 256 /\ 256 mod page_size = 0)
  /\ outcome_of (main 1 (sim_boot 3 (Some "0x00000100") 0)) = Spin
  /\ firstn 9 (trace_of (main 1 (sim_boot 3 (Some "0x00000100") 0)))
     = [ EvStdout ("GPIO UIO test." ++ nl)%string;
         EvOpen uiod O_RDWR 3;
         EvFopen size_path "r" true;
         EvFclose;
         EvMmap 256 3 0 sim_base ]
       ++ configuration sim_base.
Proof.
  split; [| split; [| split]].
  - exists 3, 0, sim_base. split.
    + vm_compute. do 4 right. left. reflexivity.
    + vm_compute. discriminate 1.
  - vm_compute. intros [_ H]. discriminate H.
  - vm_compute. reflexivity.
  - vm_compute. reflexivity.
Qed.

(** C7 as amended, on the same start-up. *)
Lemma mapping_follows_the_primitive_witness :
  1 <= fst (opened (sim_boot 3 (Some "0x00000100") 0))
  /\ fst (size_file (sim_boot 3 (Some "0x00000100") 0)) = Some "0x00000100"
  /\ maps_region (trace_of (main 1 (sim_boot 3 (Some "0x00000100") 0)))
       (parsed_size (sim_boot 3 (Some "0x00000100") 0) "0x00000100").
Proof.
  split; [vm_compute; discriminate 1 |]. split; [reflexivity |].
  apply (mapping_follows_the_primitive 1
           (sim_boot 3 (Some "0x00000100") 0) "0x00000100").
  - vm_compute. discriminate 1.
  - reflexivity.
  - vm_compute. discriminate 1.
Defined.

(** * Further properties of the program *)

(** ** The loop as a whole *)

Lemma filter_none {A : Type} (p : A -> bool) (l : list A) :
  Forall (fun x => p x = false) l -> filter p l = [].
Proof.
  induction 1 as [| x l Hx _ IH]; cbn [filter]; [reflexivity |].
  rewrite Hx. exact IH.
Qed.

Section LoopProperties.

Context {Env : Type} {P : Platform Env}.
Variables fd gpio_ptr : Z.

(** What holds of every event of every call holds of every event of the
    loop. *)
Lemma iterations_Forall (Q : event -> Prop) :
  (forall e : Env, Forall Q (trace_of (wait_for_interrupt fd gpio_ptr e))) ->
  forall n e, Forall Q (concat (iterations fd gpio_ptr n e)).
Proof.
  intros Hcall. induction n as [| n IH]; intros e; cbn [iterations concat].
  - constructor.
  - apply Forall_app. split; [apply Hcall | apply IH].
Qed.

(** A count that is 1 in every call is [n] after [n] iterations. *)
Lemma iterations_count (p : event -> bool) :
  (forall e : Env,
     count p (trace_of (wait_for_interrupt fd gpio_ptr e)) = 1%nat) ->
  forall n e, count p (concat (iterations fd gpio_ptr n e)) = n.
Proof.
  intros Hcall. induction n as [| n IH]; intros e; cbn [iterations concat].
  - reflexivity.
  - unfold count in *. rewrite filter_app, length_app, Hcall, IH.
    reflexivity.
Qed.

(** The events of a call are the channel read and write, register
    accesses within the six registers the program uses, and one report
    line. *)
Lemma call_events (e : Env) :
  Forall
    (fun ev =>
       is_munmap ev = false /\ is_fopen_ok ev = false
       /\ is_fclose ev = false /\ is_mmap ev = false
       /\ (is_stdout ev = true ->
           exists v, 0 <= v < 2 ^ 32 /\ ev = EvStdout (report v))
       /\ (forall off, register_offset gpio_ptr ev = Some off ->
                       In off registers_used))
    (trace_of (wait_for_interrupt fd gpio_ptr e)).
Proof.
  rewrite wait_for_interrupt_run. cbn [trace_of]. unfold handling_events.
  assert (Hstatus : In GPIO_IRQ_STATUS registers_used)
    by (unfold registers_used; cbn [In]; tauto).
  assert (Hdata2 : In GPIO_DATA2_OFFSET registers_used)
    by (unfold registers_used; cbn [In]; tauto).
  assert (Hrange : 0 <= data2 fd gpio_ptr e < 2 ^ 32)
    by (apply Z.mod_pos_bound; lia).
  destruct (irq_status fd gpio_ptr e =? 0); cbn [app];
    repeat (constructor;
            [ cbn [is_munmap is_fopen_ok is_fclose is_mmap is_stdout
                   register_offset];
              repeat split; try reflexivity; try discriminate;
              try (intros _; eexists; split; [exact Hrange | reflexivity]);
              try (intros off Hoff; injection Hoff as <-;
                   rewrite Z.add_simpl_l; assumption)
            | ]);
    constructor.
Qed.

(** X1: on the notification channel the loop strictly alternates: its
    channel events are a read, a write, a read, a write and so on, one
    pair per iteration, whatever the reads and writes return; and the
    loop does not end by itself. *)
Theorem loop_alternates_read_and_reenable (n : nat) :
  forall e : Env,
    outcome_of (forever n (wait_for_interrupt fd gpio_ptr) e) = Spin
    /\ map is_channel_read
         (filter is_channel_event
            (trace_of (forever n (wait_for_interrupt fd gpio_ptr) e)))
       = handshakes n.
Proof.
  induction n as [| n IH]; intros e; [split; reflexivity |].
  cbn [forever].
  rewrite (bind_ret_run _ _ e tt)
    by (rewrite wait_for_interrupt_run; reflexivity).
  cbn [outcome_of trace_of].
  destruct (IH (env_of (wait_for_interrupt fd gpio_ptr e))) as [Hspin Halt].
  split; [exact Hspin |].
  rewrite filter_app, map_app, Halt.
  rewrite wait_for_interrupt_run. cbn [trace_of]. unfold handling_events.
  destruct (irq_status fd gpio_ptr e =? 0); reflexivity.
Qed.

End LoopProperties.

(** ** Whole runs of [main] *)

Section MainProperties.

Context {Env : Type} {P : Platform Env}.

Lemma loop_events (fd gpio_ptr : Z) (n : nat) (e : Env) :
  Forall
    (fun ev =>
       is_munmap ev = false /\ is_fopen_ok ev = false
       /\ is_fclose ev = false /\ is_mmap ev = false
       /\ (is_stdout ev = true ->
           exists v, 0 <= v < 2 ^ 32 /\ ev = EvStdout (report v))
       /\ (forall off, register_offset gpio_ptr ev = Some off ->
                       In off registers_used))
    (trace_of (forever n (wait_for_interrupt fd gpio_ptr) e)).
Proof.
  rewrite forever_trace. apply iterations_Forall. apply call_events.
Qed.

Lemma loop_stdout_count (fd gpio_ptr : Z) (n : nat) (e : Env) :
  count is_stdout (trace_of (forever n (wait_for_interrupt fd gpio_ptr) e))
  = n.
Proof.
  rewrite forever_trace. apply iterations_count. intros e'.
  rewrite wait_for_interrupt_run. cbn [trace_of]. unfold handling_events.
  destruct (irq_status fd gpio_ptr e' =? 0); reflexivity.
Qed.

(** X2: no run of [main] ends with status 0 and none unmaps the region:
    a run either ends with status -1 or is still in the loop however much
    fuel it is given. *)
Theorem main_never_returns_zero_nor_unmaps (fuel : nat) (e : Env) :
  (exit_status (outcome_of (main fuel e)) = Some (-1)
   \/ outcome_of (main fuel e) = Spin)
  /\ filter is_munmap (trace_of (main fuel e)) = [].
Proof.
  rewrite main_run.
  destruct (fst (opened e) <? 1); [split; [left |]; reflexivity |].
  destruct (fst (size_file e)) as [content |];
    [| split; [left |]; reflexivity].
  destruct (fst (mapped e content) =? MAP_FAILED);
    [split; [left |]; reflexivity |].
  cbn [outcome_of trace_of]. split; [right; reflexivity |].
  rewrite !filter_app. unfold startup_events, configuration.
  cbn [filter is_munmap app].
  apply filter_none.
  eapply Forall_impl; [| apply loop_events].
  intros ev H. apply H.
Qed.

(** X3: in every run of [main] the stream of the region-size descriptor
    is closed as often as it was successfully opened, and where the
    mapping is requested the stream has been closed before: the closes and
    mapping requests of a run are either none, or one close followed by
    one request. *)
Theorem size_stream_is_closed (fuel : nat) (e : Env) :
  count is_fclose (trace_of (main fuel e))
  = count is_fopen_ok (trace_of (main fuel e))
  /\ (map is_fclose
        (filter (fun ev => is_fclose ev || is_mmap ev)
           (trace_of (main fuel e))) = []
      \/ map is_fclose
           (filter (fun ev => is_fclose ev || is_mmap ev)
              (trace_of (main fuel e))) = [true; false]).
Proof.
  rewrite main_run.
  destruct (fst (opened e) <? 1); [split; [| left]; reflexivity |].
  destruct (fst (size_file e)) as [content |];
    [| split; [| left]; reflexivity].
  destruct (fst (mapped e content) =? MAP_FAILED);
    [split; [| right]; reflexivity |].
  cbn [trace_of].
  set (loop := trace_of (forever fuel _ _)).
  assert (Hloop : Forall (fun ev => is_fclose ev = false
                                    /\ is_fopen_ok ev = false
                                    /\ is_mmap ev = false) loop).
  { eapply Forall_impl; [| apply loop_events].
    intros ev H. repeat split; apply H. }
  assert (Hclose : filter is_fclose loop = []).
  { apply filter_none. eapply Forall_impl; [| exact Hloop].
    intros ev H. apply H. }
  assert (Hopen : filter is_fopen_ok loop = []).
  { apply filter_none. eapply Forall_impl; [| exact Hloop].
    intros ev H. apply H. }
  assert (Hboth : filter (fun ev => is_fclose ev || is_mmap ev) loop = []).
  { apply filter_none. eapply Forall_impl; [| exact Hloop].
    intros ev (H1 & _ & H2). rewrite H1, H2. reflexivity. }
  unfold count, startup_events, configuration. cbn [app].
  cbn [filter is_fclose is_fopen_ok is_mmap orb]. rewrite Hclose, Hopen, Hboth.
  split; [| right]; reflexivity.
Qed.

(** X4: after a successful start-up the output of the program is the
    banner and then one report line per handled interrupt, nothing else:
    with [fuel] iterations run there are [fuel + 1] lines, each the banner
    or the report of a 32-bit value. *)
Theorem output_is_banner_and_reports
    (fuel : nat) (e : Env) (content : string) :
  1 <= fst (opened e) ->
  fst (size_file e) = Some content ->
  fst (mapped e content) <> MAP_FAILED ->
  count is_stdout (trace_of (main fuel e)) = S fuel
  /\ hd EvFclose (trace_of (main fuel e)) = EvStdout banner
  /\ Forall
       (fun ev =>
          is_stdout ev = true ->
          ev = EvStdout banner
          \/ exists v, 0 <= v < 2 ^ 32 /\ ev = EvStdout (report v))
       (trace_of (main fuel e)).
Proof.
  intros Hfd Hfile Hp. rewrite main_run.
  replace (fst (opened e) <? 1) with false
    by (symmetry; apply Z.ltb_ge; lia).
  rewrite Hfile. apply Z.eqb_neq in Hp. rewrite Hp. cbn [trace_of].
  split; [| split].
  - unfold count. rewrite !filter_app, !length_app.
    fold (count is_stdout
            (trace_of (forever fuel
                         (wait_for_interrupt (fst (opened e))
                            (fst (mapped e content)))
                         (configured e content)))).
    rewrite loop_stdout_count. reflexivity.
  - reflexivity.
  - apply Forall_app. split; [| apply Forall_app; split].
    + unfold startup_events.
      repeat (constructor; [cbn [is_stdout]; try discriminate |]).
      * intros _. left. reflexivity.
      * constructor.
    + unfold configuration.
      repeat (constructor; [cbn [is_stdout]; discriminate |]).
      constructor.
    + eapply Forall_impl; [| apply loop_events].
      intros ev (_ & _ & _ & _ & H & _) Hout. right. exact (H Hout).
Qed.

(** X5: the only registers a run of [main] ever loads or stores are TRI,
    TRI2, GLOBAL_IRQ, IRQ_CONTROL, IRQ_STATUS and DATA2 of the mapped
    block: every access lies at one of these six offsets from the pointer
    the mapping returned, so at most 0x128 bytes into the region, and the
    DATA register at offset 0 is never touched. *)
Theorem only_six_registers_are_accessed
    (fuel : nat) (e : Env) (content : string) :
  fst (size_file e) = Some content ->
  Forall
    (fun ev =>
       forall off,
         register_offset (fst (mapped e content)) ev = Some off ->
         In off registers_used
         /\ GPIO_DATA_OFFSET < off <= GPIO_IRQ_CONTROL)
    (trace_of (main fuel e)).
Proof.
  intros Hfile.
  assert (Hused : forall off, In off registers_used ->
            In off registers_used
            /\ GPIO_DATA_OFFSET < off <= GPIO_IRQ_CONTROL).
  { intros off Hin. split; [exact Hin |].
    unfold registers_used in Hin. cbn [In] in Hin.
    unfold GPIO_DATA_OFFSET, GPIO_IRQ_CONTROL, GPIO_TRI_OFFSET,
      GPIO_TRI2_OFFSET, GPIO_GLOBAL_IRQ, GPIO_IRQ_STATUS,
      GPIO_DATA2_OFFSET in *.
    lia. }
  rewrite main_run.
  destruct (fst (opened e) <? 1).
  { cbn [trace_of].
    repeat (constructor; [intros off Hoff; discriminate Hoff |]).
    constructor. }
  rewrite Hfile.
  destruct (fst (mapped e content) =? MAP_FAILED); cbn [trace_of].
  { unfold startup_events. cbn [app].
    repeat (constructor; [intros off Hoff; discriminate Hoff |]).
    constructor. }
  apply Forall_app. split; [| apply Forall_app; split].
  - unfold startup_events.
    repeat (constructor; [intros off Hoff; discriminate Hoff |]).
    constructor.
  - unfold configuration.
    repeat (constructor;
            [ intros off Hoff; cbn [register_offset] in Hoff;
              injection Hoff as <-; rewrite Z.add_simpl_l;
              apply Hused; unfold registers_used; cbn [In]; tauto |]).
    constructor.
  - eapply Forall_impl; [| apply loop_events].
    intros ev (_ & _ & _ & _ & _ & H) off Hoff. apply Hused, H, Hoff.
Qed.

(** X6: [main] takes every descriptor below 1 for a failed open.  When
    [open] answers 0, a valid descriptor, the program still prints the
    invalid-device message and returns -1; it does not open the size
    descriptor and maps nothing. *)
Theorem descriptor_below_one_is_refused (fuel : nat) (e : Env) :
  fst (opened e) < 1 ->
  main fuel e
  = MkRun (Ret (-1)) (snd (opened e))
      [ EvStdout banner;
        EvOpen uiod O_RDWR (fst (opened e));
        EvStdout ("Invalid UIO device file:/dev/uio0." ++ nl)%string ].
Proof.
  intros Hfd. rewrite main_run.
  replace (fst (opened e) <? 1) with true
    by (symmetry; apply Z.ltb_lt; exact Hfd).
  reflexivity.
Qed.

End MainProperties.

(** X4 on a simulated start-up that succeeds, run for two iterations. *)
Lemma output_is_banner_and_reports_witness :
  1 <= fst (opened (sim_boot 3 (Some "0x00010000") 0))
  /\ fst (size_file (sim_boot 3 (Some "0x00010000") 0)) = Some "0x00010000"
  /\ fst (mapped (sim_boot 3 (Some "0x00010000") 0) "0x00010000")
     <> MAP_FAILED
  /\ count is_stdout (trace_of (main 2 (sim_boot 3 (Some "0x00010000") 0)))
     = 3%nat.
Proof.
  split; [vm_compute; discriminate 1 |]. split; [reflexivity |].
  split; [vm_compute; discriminate 1 |].
  apply (output_is_banner_and_reports 2
           (sim_boot 3 (Some "0x00010000") 0) "0x00010000").
  - vm_compute. discriminate 1.
  - reflexivity.
  - vm_compute. discriminate 1.
Defined.

(** X5 on the same start-up. *)
Lemma only_six_registers_are_accessed_witness :
  fst (size_file (sim_boot 3 (Some "0x00010000") 0)) = Some "0x00010000"
  /\ Forall
       (fun ev =>
          forall off,
            register_offset
              (fst (mapped (sim_boot 3 (Some "0x00010000") 0) "0x00010000"))
              ev = Some off ->
            In off registers_used
            /\ GPIO_DATA_OFFSET < off <= GPIO_IRQ_CONTROL)
       (trace_of (main 2 (sim_boot 3 (Some "0x00010000") 0))).
Proof.
  split; [reflexivity |].
  apply (only_six_registers_are_accessed 2
           (sim_boot 3 (Some "0x00010000") 0) "0x00010000").
  reflexivity.
Defined.

(** X6 on a start-up in which [open] answers 0. *)
Lemma descriptor_below_one_is_refused_witness :
  fst (opened (sim_boot 0 (Some "0x00010000") 0)) < 1
  /\ main 2 (sim_boot 0 (Some "0x00010000") 0)
     = MkRun (Ret (-1)) (sim_boot 0 (Some "0x00010000") 0)
         [ EvStdout banner;
           EvOpen uiod O_RDWR 0;
           EvStdout ("Invalid UIO device file:/dev/uio0." ++ nl)%string ].
Proof.
  split; [vm_compute; reflexivity |].
  exact (descriptor_below_one_is_refused 2
           (sim_boot 0 (Some "0x00010000") 0) eq_refl).
Defined.

(** X11 on two equal values. *)
Lemma report_identifies_value_witness :
  0 <= 7 < 2 ^ 32 /\ 0 <= 3 + 4 < 2 ^ 32 /\ report 7 = report (3 + 4)
  /\ 7 = 3 + 4.
Proof.
  assert (H7 : 0 <= 7 < 2 ^ 32) by lia.
  assert (H34 : 0 <= 3 + 4 < 2 ^ 32) by lia.
  split; [exact H7 |]. split; [exact H34 |]. split; [reflexivity |].
  exact (report_identifies_value 7 (3 + 4) H7 H34 eq_refl).
Defined.

(** ** The register access layer *)

Lemma wrap32_idem (v : Z) : wrap32 (wrap32 v) = wrap32 v.
Proof. unfold wrap32. apply Z.mod_mod. lia. Qed.

Section RegisterAccess.

Context {Env : Type} {P : Platform Env}.

(** X7: on a platform whose registers behave as memory, reading a
    register right after writing it returns the value written, cut to 32
    bits; the two accesses go to the same address, base plus offset. *)
Theorem gpio_write_then_read (gpio_base offset value : Z) (e : Env) :
  memory_like P ->
  outcome_of
    ((gpio_write gpio_base offset value ;; gpio_read gpio_base offset) e)
  = Ret (wrap32 value)
  /\ trace_of
       ((gpio_write gpio_base offset value ;; gpio_read gpio_base offset) e)
     = [ EvStore (gpio_base + offset) (wrap32 value);
         EvLoad (gpio_base + offset) (wrap32 value) ].
Proof.
  intros Hmem. unfold bind, gpio_write, gpio_read.
  pose proof (Hmem (gpio_base + offset) (wrap32 value) e) as Hload.
  destruct (mmio_load (gpio_base + offset)
              (mmio_store (gpio_base + offset) (wrap32 value) e))
    as [v e'].
  cbn [fst] in Hload. subst v. rewrite wrap32_idem.
  split; reflexivity.
Qed.

End RegisterAccess.

(** X7 on the simulated backend, whose registers are plain memory. *)
Lemma gpio_write_then_read_witness :
  memory_like sim_platform
  /\ outcome_of
       ((gpio_write sim_base GPIO_TRI2_OFFSET 0x10000000F ;;
         gpio_read sim_base GPIO_TRI2_OFFSET) (sim_pending []))
     = Ret 0xF.
Proof.
  assert (Hmem : memory_like sim_platform).
  { intros a v e. cbn. rewrite Z.eqb_refl. reflexivity. }
  split; [exact Hmem |].
  exact (proj1 (gpio_write_then_read sim_base GPIO_TRI2_OFFSET 0x10000000F
                  (sim_pending []) Hmem)).
Defined.

(** ** The report of large values *)

Lemma decimal_opp (m : Z) : 0 < m -> decimal (- m) = String "-" (decimal m).
Proof.
  intros Hm. destruct m as [| p | p]; try lia. reflexivity.
Qed.

Section ReportProperties.

Context {Env : Type} {P : Platform Env}.
Variables fd gpio_ptr : Z.

(** X10: the report prints DATA2 with [%d] after the text [0x], that is
    in signed decimal.  When the value loaded has its top bit set, the
    line shows a minus sign and the decimal digits of 2^32 minus the
    value. *)
Theorem high_data2_is_reported_negative (e : Env) :
  2 ^ 31 <= data2 fd gpio_ptr e ->
  In (EvStdout ("GPIO_DATA2_OFFSET: 0x-"
                ++ decimal (2 ^ 32 - data2 fd gpio_ptr e) ++ nl)%string)
     (trace_of (wait_for_interrupt fd gpio_ptr e)).
Proof.
  intros Hhigh.
  assert (Hrange : 0 <= data2 fd gpio_ptr e < 2 ^ 32)
    by (apply Z.mod_pos_bound; lia).
  assert (Hreport :
    report (data2 fd gpio_ptr e)
    = ("GPIO_DATA2_OFFSET: 0x-"
       ++ decimal (2 ^ 32 - data2 fd gpio_ptr e) ++ nl)%string).
  { unfold report, to_int. rewrite (wrap32_small _ Hrange).
    replace (data2 fd gpio_ptr e <? 2 ^ 31) with false
      by (symmetry; apply Z.ltb_ge; exact Hhigh).
    replace (data2 fd gpio_ptr e - 2 ^ 32)
      with (- (2 ^ 32 - data2 fd gpio_ptr e)) by ring.
    rewrite decimal_opp by lia. reflexivity. }
  rewrite <- Hreport.
  rewrite wait_for_interrupt_run. cbn [trace_of]. unfold handling_events.
  destruct (irq_status fd gpio_ptr e =? 0); cbn [app In]; tauto.
Qed.

End ReportProperties.

(** X10 with DATA2 holding 0xFFFFFFFF: the line reads [0x-1]. *)
Lemma high_data2_is_reported_negative_witness :
  2 ^ 31 <= data2 3 sim_base (sim_data2 0xFFFFFFFF)
  /\ In (EvStdout ("GPIO_DATA2_OFFSET: 0x-1" ++ nl)%string)
       (trace_of (wait_for_interrupt 3 sim_base (sim_data2 0xFFFFFFFF))).
Proof.
  assert (H : 2 ^ 31 <= data2 3 sim_base (sim_data2 0xFFFFFFFF))
    by (vm_compute; discriminate 1).
  split; [exact H |].
  exact (high_data2_is_reported_negative 3 sim_base
           (sim_data2 0xFFFFFFFF) H).
Defined.

(** ** What the region-size parser accepts and refuses *)

Lemma ascii_code_eqb (a b : ascii) :
  (ascii_code a =? ascii_code b) = Ascii.eqb a b.
Proof.
  destruct (Ascii.eqb_spec a b) as [-> | Hne].
  - apply Z.eqb_refl.
  - apply Z.eqb_neq. intros H. apply Hne.
    unfold ascii_code in H. apply N2Z.inj in H.
    rewrite <- (ascii_N_embedding a), <- (ascii_N_embedding b), H.
    reflexivity.
Qed.

(** Without the two characters [0x] at its start the text assigns
    nothing. *)
Lemma fscanf_needs_0x (content : string) :
  starts_with_0x content = false ->
  snd (fscanf content "0x%08X") = [].
Proof.
  unfold fscanf. rewrite parse_size_format. intros H.
  destruct content as [| a [| b r]]; cbn [scan].
  - reflexivity.
  - rewrite ascii_code_eqb, Ascii.eqb_sym.
    destruct (Ascii.eqb a "0"); reflexivity.
  - cbn [starts_with_0x] in H.
    rewrite ascii_code_eqb, Ascii.eqb_sym.
    destruct (Ascii.eqb a "0"); [| reflexivity].
    cbn [andb] in H. cbn [scan].
    rewrite ascii_code_eqb, Ascii.eqb_sym, H. reflexivity.
Qed.

Lemma skip_space_app (ws s : string) :
  all_space ws = true -> skip_space (ws ++ s) = skip_space s.
Proof.
  induction ws as [| c ws IH]; cbn [all_space append skip_space];
    intros H; [reflexivity |].
  apply andb_true_iff in H. destruct H as [Hc Hws].
  rewrite Hc. apply IH. exact Hws.
Qed.

Lemma not_hex_digit (c : ascii) : is_hex c = false -> hex_digit c = None.
Proof.
  rewrite hex_digit_table. unfold is_hex.
  destruct (digit_value c); [discriminate | reflexivity].
Qed.

(** At the end of a number no further digit is taken. *)
Lemma take_hex_end (w : nat) (rest : string) (acc : option Z) :
  ends_number rest = true -> take_hex w rest acc = (acc, rest).
Proof.
  intros H. destruct w as [| w]; destruct rest as [| c r];
    cbn [take_hex]; try reflexivity.
  cbn [ends_number] in H. apply andb_true_iff in H. destruct H as [H _].
  apply negb_true_iff in H. rewrite (not_hex_digit c H). reflexivity.
Qed.

(** Digits that end before the field width is used up are all taken. *)
Lemma take_hex_short (ds : list ascii) (rest : string) :
  forallb is_hex ds = true -> ds <> [] -> ends_number rest = true ->
  forall w acc,
    (List.length ds <= w)%nat ->
    take_hex w (string_of_list_ascii ds ++ rest)%string acc
    = (Some (match acc with Some a => a | None => 0 end
             * 16 ^ Z.of_nat (List.length ds) + hex_value ds), rest).
Proof.
  intros Hhex Hne Hend.
  induction ds as [| d ds IH]; intros w acc Hw; [congruence |].
  cbn [forallb] in Hhex. apply andb_true_iff in Hhex.
  destruct Hhex as [Hd Hds].
  destruct (is_hex_facts d Hd) as (_ & _ & _ & v & Hv & Hrange).
  destruct w as [| w]; cbn [List.length] in Hw; [lia |].
  cbn [List.length string_of_list_ascii append take_hex hex_value].
  rewrite hex_digit_table, Hv.
  destruct ds as [| d' ds'].
  - cbn [List.length string_of_list_ascii append hex_value].
    rewrite (take_hex_end w rest _ Hend).
    change (Z.of_nat 1) with 1. change (Z.of_nat 0) with 0.
    rewrite Z.pow_1_r, Z.pow_0_r. f_equal. f_equal. lia.
  - rewrite (IH Hds) by (try discriminate; cbn [List.length] in *; lia).
    f_equal. f_equal.
    set (n := List.length (d' :: ds')).
    rewrite Nat2Z.inj_succ, Z.pow_succ_r by lia.
    set (a := match acc with Some a => a | None => 0 end).
    ring.
Qed.

Lemma scan_hex_lax (ws : string) (ds : list ascii) (rest : string) :
  all_space ws = true ->
  (1 <= List.length ds <= 8)%nat -> forallb is_hex ds = true ->
  ends_number rest = true ->
  scan_hex 8 (ws ++ string_of_list_ascii ds ++ rest)%string
  = ConvOk (hex_value ds) rest.
Proof.
  intros Hws Hlen Hhex Hend.
  pose proof (hex_value_bound ds Hhex) as Hbound.
  assert (Hpow : 16 ^ Z.of_nat (List.length ds) <= 2 ^ 32).
  { change (2 ^ 32) with (16 ^ 8). apply Z.pow_le_mono_r; lia. }
  assert (Hne : ds <> []) by (destruct ds; cbn in Hlen; [lia | discriminate]).
  pose proof (take_hex_short ds rest Hhex Hne Hend 8%nat None
                (proj2 Hlen)) as Htake.
  rewrite Z.mul_0_l, Z.add_0_l in Htake.
  unfold scan_hex. rewrite (skip_space_app ws _ Hws).
  destruct ds as [| d1 ds]; [congruence |].
  cbn [forallb] in Hhex. apply andb_true_iff in Hhex.
  destruct Hhex as [H1 Hhex].
  destruct (is_hex_facts d1 H1) as (Hsp & Hsg & _ & _).
  cbn [string_of_list_ascii append skip_space] in *.
  rewrite Hsp, Hsg. cbn [andb].
  assert (Hwrap : wrap32 (hex_value (d1 :: ds)) = hex_value (d1 :: ds))
    by (apply wrap32_small; lia).
  destruct ds as [| d2 ds]; cbn [string_of_list_ascii append] in *.
  - destruct rest as [| c r].
    + rewrite Htake, Hwrap. reflexivity.
    + cbn [ends_number] in Hend. apply andb_true_iff in Hend.
      destruct Hend as [_ Hx]. apply negb_true_iff in Hx.
      rewrite Hx, andb_false_r. cbn [andb].
      rewrite Htake, Hwrap. reflexivity.
  - cbn [forallb] in Hhex. apply andb_true_iff in Hhex.
    destruct Hhex as [H2 _].
    destruct (is_hex_facts d2 H2) as (_ & _ & Hx & _).
    rewrite Hx, andb_false_r. cbn [andb].
    rewrite Htake, Hwrap. reflexivity.
Qed.

Section ParserProperties.

Context {Env : Type} {P : Platform Env}.

(** X8: a descriptor whose text does not begin with the two characters
    [0x], the [x] in lower case, is not parsed at all: leading white space,
    an upper-case [0X], a decimal number or an empty file all leave [size]
    unassigned, and [get_memory_size] returns the indeterminate value
    without a diagnostic. *)
Theorem size_without_0x_is_not_parsed
    (path : string) (e e' : Env) (content : string) :
  os_fopen path "r" e = (Some content, e') ->
  starts_with_0x content = false ->
  get_memory_size path e
  = MkRun (Ret (wrap32 (indeterminate e))) e'
      [EvFopen path "r" true; EvFclose].
Proof.
  intros Hopen Hstart.
  rewrite get_memory_size_run, Hopen, (fscanf_needs_0x content Hstart).
  reflexivity.
Qed.

(** X9: the parser accepts more than the format [0xXXXXXXXX].  After
    the [0x] white space is skipped, and one to eight hexadecimal digits
    that end at the end of the text or at a character that is neither a
    digit nor an [x] are read as the number they denote. *)
Theorem get_memory_size_accepts_lax_text
    (path : string) (e e' : Env)
    (ws : string) (digits : list ascii) (rest : string) :
  os_fopen path "r" e = (Some (lax_size_text ws digits rest), e') ->
  all_space ws = true ->
  (1 <= List.length digits <= 8)%nat ->
  forallb is_hex digits = true ->
  ends_number rest = true ->
  get_memory_size path e
  = MkRun (Ret (hex_value digits)) e' [EvFopen path "r" true; EvFclose].
Proof.
  intros Hopen Hws Hlen Hhex Hend.
  rewrite get_memory_size_run, Hopen.
  unfold fscanf, lax_size_text. rewrite parse_size_format.
  cbn [append scan]. rewrite !ascii_code_eqb. cbn [Ascii.eqb Bool.eqb andb].
  rewrite (scan_hex_lax ws digits rest Hws Hlen Hhex Hend).
  reflexivity.
Qed.

End ParserProperties.

(** X8 on a descriptor that reads [0X00010000], with an upper-case X. *)
Lemma size_without_0x_is_not_parsed_witness :
  os_fopen size_path "r" (sim_boot 3 (Some "0X00010000") 12345)
    = (Some "0X00010000", sim_boot 3 (Some "0X00010000") 12345)
  /\ starts_with_0x "0X00010000" = false
  /\ get_memory_size size_path (sim_boot 3 (Some "0X00010000") 12345)
     = MkRun (Ret 12345) (sim_boot 3 (Some "0X00010000") 12345)
         [EvFopen size_path "r" true; EvFclose].
Proof.
  split; [reflexivity |]. split; [reflexivity |].
  exact (size_without_0x_is_not_parsed size_path
           (sim_boot 3 (Some "0X00010000") 12345)
           (sim_boot 3 (Some "0X00010000") 12345) "0X00010000"
           eq_refl eq_refl).
Defined.

(** X9 on a descriptor that reads [0x 1000] and a line feed: 4096. *)
Lemma get_memory_size_accepts_lax_text_witness :
  os_fopen size_path "r" (sim_boot 3 (Some ("0x 1000" ++ nl)%string) 0)
    = (Some (lax_size_text " " ["1"; "0"; "0"; "0"]%char nl),
       sim_boot 3 (Some ("0x 1000" ++ nl)%string) 0)
  /\ all_space " " = true
  /\ (1 <= List.length ["1"; "0"; "0"; "0"]%char <= 8)%nat
  /\ forallb is_hex ["1"; "0"; "0"; "0"]%char = true
  /\ ends_number nl = true
  /\ get_memory_size size_path
       (sim_boot 3 (Some ("0x 1000" ++ nl)%string) 0)
     = MkRun (Ret 4096) (sim_boot 3 (Some ("0x 1000" ++ nl)%string) 0)
         [EvFopen size_path "r" true; EvFclose].
Proof.
  assert (Hlen : (1 <= List.length ["1"; "0"; "0"; "0"]%char <= 8)%nat)
    by (cbn; lia).
  split; [reflexivity |]. split; [reflexivity |]. split; [exact Hlen |].
  split; [reflexivity |]. split; [reflexivity |].
  exact (get_memory_size_accepts_lax_text size_path
           (sim_boot 3 (Some ("0x 1000" ++ nl)%string) 0)
           (sim_boot 3 (Some ("0x 1000" ++ nl)%string) 0)
           " " ["1"; "0"; "0"; "0"]%char nl
           eq_refl eq_refl Hlen eq_refl eq_refl).
Defined.

(** ** Register writes over a whole run *)

Section StoreProperties.

Context {Env : Type} {P : Platform Env}.

(** The register writes of [n] iterations are acknowledges, at most one
    per iteration. *)
Lemma loop_stores (fd gpio_ptr : Z) (n : nat) :
  forall e : Env,
    exists k,
      (k <= n)%nat
      /\ filter is_store
           (trace_of (forever n (wait_for_interrupt fd gpio_ptr) e))
         = repeat (EvStore (gpio_ptr + GPIO_IRQ_STATUS) 2) k.
Proof.
  induction n as [| n IH]; intros e.
  - exists 0%nat. split; [lia | reflexivity].
  - cbn [forever].
    rewrite (bind_ret_run _ _ e tt)
      by (rewrite wait_for_interrupt_run; reflexivity).
    cbn [trace_of]. rewrite filter_app.
    destruct (IH (env_of (wait_for_interrupt fd gpio_ptr e)))
      as (k & Hk & ->).
    rewrite wait_for_interrupt_run. cbn [trace_of]. unfold handling_events.
    destruct (irq_status fd gpio_ptr e =? 0); cbn [app filter is_store].
    + exists k. split; [lia | reflexivity].
    + exists (S k). split; [lia | reflexivity].
Qed.

(** X12: after a successful start-up the register writes of the whole
    run are the four configuration writes, TRI, TRI2, GLOBAL_IRQ and
    IRQ_CONTROL, once each and in this order, followed only by
    acknowledges of 2 to IRQ_STATUS, at most one per iteration.  The
    configuration is complete before the channel is read for the first
    time. *)
Theorem stores_are_configuration_then_acknowledges
    (fuel : nat) (e : Env) (content : string) :
  1 <= fst (opened e) ->
  fst (size_file e) = Some content ->
  fst (mapped e content) <> MAP_FAILED ->
  (exists k,
     (k <= fuel)%nat
     /\ filter is_store (trace_of (main fuel e))
        = configuration (fst (mapped e content))
          ++ repeat
               (EvStore (fst (mapped e content) + GPIO_IRQ_STATUS) 2) k)
  /\ firstn 4 (filter is_device_access (trace_of (main fuel e)))
     = configuration (fst (mapped e content)).
Proof.
  intros Hfd Hfile Hp. rewrite main_run.
  replace (fst (opened e) <? 1) with false
    by (symmetry; apply Z.ltb_ge; lia).
  rewrite Hfile. apply Z.eqb_neq in Hp. rewrite Hp. cbn [trace_of].
  split.
  - destruct (loop_stores (fst (opened e)) (fst (mapped e content)) fuel
                (configured e content)) as (k & Hk & Hloop).
    exists k. split; [exact Hk |].
    rewrite !filter_app, Hloop. reflexivity.
  - rewrite !filter_app. reflexivity.
Qed.

End StoreProperties.

(** X12 on a simulated start-up that succeeds, run for two iterations. *)
Lemma stores_are_configuration_then_acknowledges_witness :
  1 <= fst (opened (sim_boot 3 (Some "0x00010000") 0))
  /\ fst (size_file (sim_boot 3 (Some "0x00010000") 0)) = Some "0x00010000"
  /\ fst (mapped (sim_boot 3 (Some "0x00010000") 0) "0x00010000")
     <> MAP_FAILED
  /\ firstn 4
       (filter is_device_access
          (trace_of (main 2 (sim_boot 3 (Some "0x00010000") 0))))
     = configuration sim_base.
Proof.
  assert (H1 : 1 <= fst (opened (sim_boot 3 (Some "0x00010000") 0)))
    by (vm_compute; discriminate 1).
  assert (H3 : fst (mapped (sim_boot 3 (Some "0x00010000") 0) "0x00010000")
               <> MAP_FAILED)
    by (vm_compute; discriminate 1).
  split; [exact H1 |]. split; [reflexivity |]. split; [exact H3 |].
  exact (proj2 (stores_are_configuration_then_acknowledges 2
                  (sim_boot 3 (Some "0x00010000") 0) "0x00010000"
                  H1 eq_refl H3)).
Defined.
